(** * Ubuntu_Requests: the image fetcher (Libraries.py) and the Iris
    analysis pipeline (Data_analysis.py), embedded and verified.

    Both scripts are glue around library calls, so the embedding is a
    small Python-like runtime (exceptions, a printed log, a file system)
    on which the two scripts are transcribed statement by statement.

    Conventions.
    - A Python [str] holding header text, URLs or file names is a Rocq
      [string]; file contents are [list byte].
    - The file system is seen from the working directory: a finite map
      from directory paths to what is there, and for a directory the
      finite map of its entries.  A path built by [os.path.join(d, n)]
      is the pair of [d] and [n]: every [n] the scripts build has no
      slash in it ([os.path.basename] drops everything up to the last
      slash, [split('/')[-1]] does the same, and the chart names are
      literals).
    - Library functions whose result the scripts only pass around
      ([urlparse], [int], SHA-256, the renderers, float means) are
      section variables. *)

From Stdlib Require Import ZArith String Ascii List.
From Stdlib.Strings Require Import Byte.
From stdpp Require Import base tactics option list strings gmap pretty.

Local Open Scope string_scope.

Set Default Proof Using "Type".

(** ** Python runtime *)

Module Py.

(** The exception classes (all below [Exception]) that the modelled
    statements can raise.  [RequestException] stands for the whole
    family raised by [requests.get] and [raise_for_status];
    [UnicodeEncodeError] is what [print] raises on a standard output
    whose encoding lacks a character of the text. *)
Inductive exn : Type :=
  | RequestException
  | ValueError
  | IndexError
  | KeyError
  | FileExistsError
  | FileNotFoundError
  | IsADirectoryError
  | NotADirectoryError
  | PermissionError
  | UnicodeEncodeError.

Definition is_RequestException (e : exn) : bool :=
  match e with RequestException => true | _ => false end.

(** How a statement ends: normally with a value, with an exception, or
    not at all (a loop that ran out of its unrolling bound). *)
Inductive outcome (A : Type) : Type :=
  | Return (a : A)
  | Raise (e : exn)
  | Diverge.
Arguments Return {A} a.
Arguments Raise {A} e.
Arguments Diverge {A}.

End Py.
Export Py.

(** ** Strings as Python uses them *)

Module Str.

Definition startswith (s pre : string) : bool := String.prefix pre s.

(** [str.lower] on Latin-1 text (what HTTP header values are decoded
    as): A-Z and the accented capitals 0xC0-0xDE, except the
    multiplication sign 0xD7, move up by 32. *)
Definition lower_ascii (c : ascii) : ascii :=
  let n := N_of_ascii c in
  if ((65 <=? n) && (n <=? 90) ||
      (192 <=? n) && (n <=? 222) && negb (n =? 215))%N
  then ascii_of_N (n + 32) else c.

Fixpoint lower (s : string) : string :=
  match s with
  | EmptyString => EmptyString
  | String c r => String (lower_ascii c) (lower r)
  end.

(** [c in s] for a one-character [c]. *)
Fixpoint contains (c : ascii) (s : string) : bool :=
  match s with
  | EmptyString => false
  | String a r => Ascii.eqb a c || contains c r
  end.

(** The text after the last [sep]; [None] when [sep] does not occur. *)
Fixpoint after_last (sep : ascii) (s : string) : option string :=
  match s with
  | EmptyString => None
  | String c r =>
      match after_last sep r with
      | Some t => Some t
      | None => if Ascii.eqb c sep then Some r else None
      end
  end.

(** [s.split(sep)[-1]] *)
Definition last_segment (sep : ascii) (s : string) : string :=
  default s (after_last sep s).

(** The text from the last [sep] on (with it), and the text before. *)
Fixpoint split_last (sep : ascii) (s : string) : option (string * string) :=
  match s with
  | EmptyString => None
  | String c r =>
      match split_last sep r with
      | Some (b, e) => Some (String c b, e)
      | None => if Ascii.eqb c sep then Some (EmptyString, s) else None
      end
  end.

Fixpoint all_dots (s : string) : bool :=
  match s with
  | EmptyString => true
  | String c r => Ascii.eqb c "." && all_dots r
  end.

End Str.

(** [os.path.basename] on a POSIX path. *)
Definition basename (p : string) : string := Str.last_segment "/" p.

(** [os.path.splitext] on a name without a slash: split at the last
    dot, unless only dots come before it. *)
Definition splitext (p : string) : string * string :=
  match Str.split_last "." p with
  | Some (b, e) => if Str.all_dots b then (p, "") else (b, e)
  | None => (p, "")
  end.

(** ** The file system *)

#[global] Instance byte_eq_decision : EqDecision byte := Byte.byte_eq_dec.

Record file : Type := File
  { content : list byte;
    readable : bool;
    writable : bool }.

(** An entry of a directory: a regular file or a sub-directory. *)
Inductive node : Type :=
  | Reg (f : file)
  | SubDir.

(** What a directory path names: a directory with its entries, or
    something that is not a directory. *)
Inductive entry : Type :=
  | Directory (d : gmap string node)
  | NotDir.

(** [os.path.join(d, n)] *)
Record path : Type := Join { pdir : string; pname : string }.

(** A printed line.  Texts are kept structured: the line says which
    [print] statement produced it and with which values. *)
Inductive line : Type :=
  (* Libraries.py *)
  | InvalidScheme (url : string)
  | NotAnImage (url : string) (content_type : option string)
  | TooLarge (url : string)
  | DuplicateOf (url existing_file : string)
  | Fetched (filename : string)
  | SavedTo (filepath : path)
  | ConnectionError (url : string) (e : exn)
  | ErrorOccurred (url : string) (e : exn)
  (* Data_analysis.py: a literal text, the rendering of a value (only
     the expression printed is kept), and the two lines that name a
     species (the formatted mean is left out) *)
  | Text (s : string)
  | Shown (expr : string)
  | SmallestPetal (species : string)
  | LargestSepal (species : string)
  | LoadFailed (e : exn).

Record world : Type := World
  { fs : gmap string entry;
    stdout : list line }.

(** Statements: state passing with exceptions; the state reached so far
    survives a [Raise]. *)
Definition M (A : Type) : Type := world -> outcome A * world.

Definition ret {A} (a : A) : M A := fun w => (Return a, w).
Definition raise {A} (e : exn) : M A := fun w => (Raise e, w).
Definition diverge {A} : M A := fun w => (Diverge, w).

Definition bind {A B} (m : M A) (k : A -> M B) : M B := fun w =>
  match m w with
  | (Return a, w') => k a w'
  | (Raise e, w') => (Raise e, w')
  | (Diverge, w') => (Diverge, w')
  end.

(** [try: body  except ...: handler] with handlers covering every
    class of [exn]. *)
Definition try_except {A} (body : M A) (handler : exn -> M A) : M A := fun w =>
  match body w with
  | (Raise e, w') => handler e w'
  | r => r
  end.

Declare Scope py_scope.
Delimit Scope py_scope with py.
Notation "x <- m ;; k" := (bind m (fun x => k))
  (at level 100, m at next level, right associativity) : py_scope.
Notation "m ;;; k" := (bind m (fun _ => k))
  (at level 100, right associativity) : py_scope.
Local Open Scope py_scope.

(** [print] on a standard output that takes every line; [print_to]
    below is [print] on one that can refuse a line. *)
Definition print (l : line) : M unit := fun w =>
  (Return tt, {| fs := fs w; stdout := stdout w ++ [l] |}).

Definition set_fs (f : gmap string entry) : M unit := fun w =>
  (Return tt, {| fs := f; stdout := stdout w |}).

Definition get_fs : M (gmap string entry) := fun w => (Return (fs w), w).

(** *** os and open *)

(** Every directory has the entries [.] and [..], which [os.listdir]
    does not show. *)
Definition is_dot_entry (n : string) : bool :=
  bool_decide (n = ".") || bool_decide (n = "..").

(** [os.makedirs(p, exist_ok=True)] for a directory whose parent is
    there: the directory named is made when it is missing.  (For a
    nested path whose parents are missing Python makes these too;
    directories are looked up here by their whole path, and the
    statements about what a run leaves unchanged outside its directory
    are made for a directory named by one component, as the default
    [Fetched_Images] is.) *)
Definition os_makedirs_exist_ok (p : string) : M unit :=
  if bool_decide (p = "") then raise FileNotFoundError
  else
    f <- get_fs ;;
    match f !! p with
    | None => set_fs (<[p := Directory ∅]> f)
    | Some (Directory _) => ret tt
    | Some NotDir => raise FileExistsError
    end.

(** The entries of the directory of a path, or the error of walking
    into something that is not a directory. *)
Definition entries_of (p : string) : M (gmap string node) :=
  f <- get_fs ;;
  match f !! p with
  | Some (Directory d) => ret d
  | Some NotDir => raise NotADirectoryError
  | None => raise FileNotFoundError
  end.

Definition set_entries (p : string) (d : gmap string node) : M unit :=
  f <- get_fs ;; set_fs (<[p := Directory d]> f).

(** What a name stands for in a directory; [.] and [..] are
    directories whatever the entries are. *)
Definition lookup_node (d : gmap string node) (n : string) : option node :=
  if is_dot_entry n then Some SubDir else d !! n.

(** [os.path.exists]: false also when the directory is not there. *)
Definition exists_in (d : gmap string node) (n : string) : bool :=
  bool_decide (is_Some (lookup_node d n)).

Definition os_path_exists (p : path) : M bool :=
  f <- get_fs ;;
  match f !! pdir p with
  | Some (Directory d) => ret (exists_in d (pname p))
  | _ => ret false
  end.

(** [os.path.isfile] *)
Definition os_path_isfile (p : path) : M bool :=
  f <- get_fs ;;
  match f !! pdir p with
  | Some (Directory d) =>
      ret (match lookup_node d (pname p) with Some (Reg _) => true | _ => false end)
  | _ => ret false
  end.

(** [os.listdir], in the order the map enumerates its keys. *)
Definition os_listdir (p : string) : M (list string) :=
  d <- entries_of p ;; ret (map_to_list d).*1.

(** [with open(p, 'wb') as f: f.write(data)].  A new file belongs to
    the process; an existing one keeps its permissions. *)
Definition write_file (p : path) (data : list byte) : M unit :=
  d <- entries_of (pdir p) ;;
  match lookup_node d (pname p) with
  | None =>
      set_entries (pdir p) (<[pname p := Reg (File data true true)]> d)
  | Some (Reg f) =>
      if writable f
      then set_entries (pdir p)
             (<[pname p := Reg (File data (readable f) true)]> d)
      else raise PermissionError
  | Some SubDir => raise IsADirectoryError
  end.

(** [open(p, 'rb')] and reading it to the end. *)
Definition read_file (p : path) : M (list byte) :=
  d <- entries_of (pdir p) ;;
  match lookup_node d (pname p) with
  | None => raise FileNotFoundError
  | Some (Reg f) => if readable f then ret (content f) else raise PermissionError
  | Some SubDir => raise IsADirectoryError
  end.

(** [os.remove] *)
Definition os_remove (p : path) : M unit :=
  d <- entries_of (pdir p) ;;
  match lookup_node d (pname p) with
  | None => raise FileNotFoundError
  | Some (Reg _) => set_entries (pdir p) (delete (pname p) d)
  | Some SubDir => raise IsADirectoryError
  end.

(** [os.rename] of a regular file inside one directory: an existing
    regular file at the target is replaced, a directory there is an
    error. *)
Definition os_rename (src dst : path) : M unit :=
  d <- entries_of (pdir src) ;;
  match lookup_node d (pname src) with
  | None => raise FileNotFoundError
  | Some SubDir => raise IsADirectoryError
  | Some (Reg f) =>
      match lookup_node d (pname dst) with
      | Some SubDir => raise IsADirectoryError
      | _ => set_entries (pdir src) (<[pname dst := Reg f]> (delete (pname src) d))
      end
  end.

(** ** Libraries.py: the image fetcher *)

(** What [requests.get] hands back: the status line, the two headers
    the script looks at (absent or with their text), the payload. *)
Record response : Type := Response
  { status_code : Z;
    content_type : option string;
    content_length : option string;
    body : list byte }.

(** The two fields of [urlparse(url)] the script reads. *)
Record parse_result : Type := ParseResult
  { scheme : string;
    url_path : string }.

(** What one invocation gets from outside the file system: the answer
    of the network to the request (an exception or a response) and the
    clock reading, already formatted by [strftime('%Y%m%d_%H%M%S')]. *)
Record env : Type := Env
  { requests_get : string -> exn + response;
    now : string }.

Definition default_output_dir : string := "Fetched_Images".

(** 10 * 1024 * 1024 *)
Definition max_content_length : Z := 10 * 1024 * 1024.

Section Fetcher.

Context {digest : Type} `{EqDecision digest}.

(** [urllib.parse.urlparse]; [None] is its [ValueError]. *)
Variable urlparse : string -> option parse_result.
(** [int(s)] on a string; [None] is its [ValueError]. *)
Variable py_int : string -> option Z.
(** [hashlib.sha256] of a byte string, as [hexdigest] gives it. *)
Variable sha256 : list byte -> digest.

Definition is_valid_image_content_type (r : response) : bool :=
  let content_type := Str.lower (default "" (content_type r)) in
  Str.startswith content_type "image/".

(** [response.raise_for_status()]: client and server errors raise. *)
Definition raise_for_status (r : response) : M unit :=
  if ((400 <=? status_code r) && (status_code r <? 600))%Z
  then raise RequestException else ret tt.

(** The number of iterations after which the model gives up on the
    [while True] loop below; [run_get_unique_filename] shows that
    the loop has always returned by then. *)
Definition loop_bound (dirp : string) : M nat :=
  f <- get_fs ;;
  match f !! dirp with
  | Some (Directory d) => ret (size d + 3)
  | _ => ret 1
  end.

Fixpoint get_unique_filename_loop (fuel : nat) (dirp base ext : string)
    (counter : nat) : M path :=
  match fuel with
  | 0 => diverge
  | S fuel' =>
      let new_filepath := Join dirp (base +:+ "_" +:+ pretty counter +:+ ext) in
      ex <- os_path_exists new_filepath ;;
      if negb ex then ret new_filepath
      else get_unique_filename_loop fuel' dirp base ext (S counter)
  end.

Definition get_unique_filename (filepath : path) : M path :=
  ex <- os_path_exists filepath ;;
  if negb ex then ret filepath
  else
    let '(base, ext) := splitext (pname filepath) in
    let counter := 1 in
    fuel <- loop_bound (pdir filepath) ;;
    get_unique_filename_loop fuel (pdir filepath) base ext counter.

(** The file is read in chunks of 4096 bytes that are fed to one hash
    object: the digest of the whole content. *)
Definition calculate_file_hash (filepath : path) : M digest :=
  data <- read_file filepath ;; ret (sha256 data).

(** The [for existing_file in os.listdir(output_dir)] loop; [Some b]
    says that the function returned [b] from inside the loop. *)
Fixpoint scan_existing (url output_dir : string) (temp_filepath : path)
    (file_hash : digest) (listing : list string) : M (option bool) :=
  match listing with
  | [] => ret None
  | existing_file :: rest =>
      if Str.startswith existing_file "temp_"
      then scan_existing url output_dir temp_filepath file_hash rest
      else
        let existing_filepath := Join output_dir existing_file in
        isfile <- os_path_isfile existing_filepath ;;
        if isfile then
          h <- calculate_file_hash existing_filepath ;;
          if bool_decide (h = file_hash) then
            print (DuplicateOf url existing_file) ;;;
            os_remove temp_filepath ;;;
            ret (Some false)
          else scan_existing url output_dir temp_filepath file_hash rest
        else scan_existing url output_dir temp_filepath file_hash rest
  end.

(** Lines 56-61: the name from the URL, or one made from the clock and
    the content type. *)
Definition derive_filename (e : env) (parsed_url : parse_result)
    (r : response) : string :=
  let filename := basename (url_path parsed_url) in
  if bool_decide (filename = "") || negb (Str.contains "." filename) then
    let content_type := default "image/jpeg" (content_type r) in
    let ext := if Str.contains "/" content_type
               then Str.last_segment "/" content_type else "jpg" in
    "image_" +:+ now e +:+ "." +:+ ext
  else filename.

(** Lines 50-54; the string of the header is truthy when not empty. *)
Definition content_length_too_large (r : response) : M bool :=
  match content_length r with
  | Some s =>
      if bool_decide (s = "") then ret false
      else
        match py_int s with
        | Some n => ret (max_content_length <? n)%Z
        | None => raise ValueError
        end
  | None => ret false
  end.

(** Lines 63-88: the temporary file, the scan for a duplicate, the
    promotion to the final name. *)
Definition save_image (url output_dir filename : string) (r : response)
    : M bool :=
  os_makedirs_exist_ok output_dir ;;;
  let filepath := Join output_dir filename in
  let temp_filepath := Join output_dir ("temp_" +:+ filename) in
  write_file temp_filepath (body r) ;;;
  file_hash <- calculate_file_hash temp_filepath ;;
  listing <- os_listdir output_dir ;;
  returned <- scan_existing url output_dir temp_filepath file_hash listing ;;
  match returned with
  | Some b => ret b
  | None =>
      filepath <- get_unique_filename filepath ;;
      os_rename temp_filepath filepath ;;;
      print (Fetched filename) ;;;
      print (SavedTo filepath) ;;;
      ret true
  end.

(** The body of the [try] statement. *)
Definition fetch_body (e : env) (url output_dir : string) : M bool :=
  match urlparse url with
  | None => raise ValueError
  | Some parsed_url =>
      if negb (bool_decide (scheme parsed_url = "http")
               || bool_decide (scheme parsed_url = "https"))
      then print (InvalidScheme url) ;;; ret false
      else
        match requests_get e url with
        | inl ex => raise ex
        | inr response =>
            raise_for_status response ;;;
            if negb (is_valid_image_content_type response)
            then print (NotAnImage url (content_type response)) ;;; ret false
            else
              too_large <- content_length_too_large response ;;
              if too_large then print (TooLarge url) ;;; ret false
              else
                let filename := derive_filename e parsed_url response in
                save_image url output_dir filename response
        end
  end.

(** The two [except] clauses. *)
Definition fetch_handler (url : string) (ex : exn) : M bool :=
  if is_RequestException ex
  then print (ConnectionError url ex) ;;; ret false
  else print (ErrorOccurred url ex) ;;; ret false.

Definition fetch_and_save_image (e : env) (url output_dir : string) : M bool :=
  try_except (fetch_body e url output_dir) (fetch_handler url).

End Fetcher.

(** ** The fetcher on a standard output that can refuse a line

    [print] encodes its text for the stream before anything is
    written.  Every line the fetcher prints carries a check mark
    (U+2713) or a cross (U+2717), and all but one carry text of the
    caller (the URL, a header, a file name): on a stream whose
    encoding lacks one of these characters (ASCII, Latin-1, a Windows
    code page) [print] raises [UnicodeEncodeError] and nothing is
    written.

    The definitions above are the fetcher on a stream that takes
    every line.  Here the stream is a parameter: the statements of
    [fetch_and_save_image] that print are transcribed again over it,
    statement for statement, and the helpers that do not print are the
    ones above. *)

(** A stream says of each line whether its encoding has every
    character of the text. *)
Definition stream : Type := line -> bool.

Definition print_to (takes : stream) (l : line) : M unit :=
  if takes l then print l else raise UnicodeEncodeError.

Module Encoded.
Section Fetcher.

Context {digest : Type} `{EqDecision digest}.
Variable urlparse : string -> option parse_result.
Variable py_int : string -> option Z.
Variable sha256 : list byte -> digest.
(** [sys.stdout] *)
Variable takes : stream.

(** The [for existing_file in os.listdir(output_dir)] loop. *)
Fixpoint scan_existing (url output_dir : string) (temp_filepath : path)
    (file_hash : digest) (listing : list string) : M (option bool) :=
  match listing with
  | [] => ret None
  | existing_file :: rest =>
      if Str.startswith existing_file "temp_"
      then scan_existing url output_dir temp_filepath file_hash rest
      else
        let existing_filepath := Join output_dir existing_file in
        isfile <- os_path_isfile existing_filepath ;;
        if isfile then
          h <- calculate_file_hash sha256 existing_filepath ;;
          if bool_decide (h = file_hash) then
            print_to takes (DuplicateOf url existing_file) ;;;
            os_remove temp_filepath ;;;
            ret (Some false)
          else scan_existing url output_dir temp_filepath file_hash rest
        else scan_existing url output_dir temp_filepath file_hash rest
  end.

(** Lines 63-88. *)
Definition save_image (url output_dir filename : string) (r : response)
    : M bool :=
  os_makedirs_exist_ok output_dir ;;;
  let filepath := Join output_dir filename in
  let temp_filepath := Join output_dir ("temp_" +:+ filename) in
  write_file temp_filepath (body r) ;;;
  file_hash <- calculate_file_hash sha256 temp_filepath ;;
  listing <- os_listdir output_dir ;;
  returned <- scan_existing url output_dir temp_filepath file_hash listing ;;
  match returned with
  | Some b => ret b
  | None =>
      filepath <- get_unique_filename filepath ;;
      os_rename temp_filepath filepath ;;;
      print_to takes (Fetched filename) ;;;
      print_to takes (SavedTo filepath) ;;;
      ret true
  end.

(** The body of the [try] statement. *)
Definition fetch_body (e : env) (url output_dir : string) : M bool :=
  match urlparse url with
  | None => raise ValueError
  | Some parsed_url =>
      if negb (bool_decide (scheme parsed_url = "http")
               || bool_decide (scheme parsed_url = "https"))
      then print_to takes (InvalidScheme url) ;;; ret false
      else
        match requests_get e url with
        | inl ex => raise ex
        | inr response =>
            raise_for_status response ;;;
            if negb (is_valid_image_content_type response)
            then print_to takes (NotAnImage url (content_type response)) ;;;
                 ret false
            else
              too_large <- content_length_too_large py_int response ;;
              if too_large then print_to takes (TooLarge url) ;;; ret false
              else
                let filename := derive_filename e parsed_url response in
                save_image url output_dir filename response
        end
  end.

(** The two [except] clauses; their [print] is inside no [try]. *)
Definition fetch_handler (url : string) (ex : exn) : M bool :=
  if is_RequestException ex
  then print_to takes (ConnectionError url ex) ;;; ret false
  else print_to takes (ErrorOccurred url ex) ;;; ret false.

Definition fetch_and_save_image (e : env) (url output_dir : string) : M bool :=
  try_except (fetch_body e url output_dir) (fetch_handler url).

End Fetcher.
End Encoded.

(** ** Data_analysis.py: loader, analyzer, visualizer *)

(** The directory of [os.makedirs("Fetched_Images", ...)] and of the
    four [savefig] paths. *)
Definition charts_dir : string := "Fetched_Images".

Definition trend_png : string := "petal_length_trend.png".
Definition bar_png : string := "avg_petal_length_bar.png".
Definition hist_png : string := "sepal_length_histogram.png".
Definition scatter_png : string := "sepal_vs_petal_scatter.png".

Definition chart_names : list string :=
  [trend_png; bar_png; hist_png; scatter_png].

(** [group_means.index[i]] and positional access to a column of the
    aggregate: out of range is [IndexError]. *)
Definition at_position {A} (l : list A) (i : nat) : M A :=
  match l !! i with
  | Some a => ret a
  | None => raise IndexError
  end.

(** Whether [groupby] keeps only the categories that occur.  The
    script calls [groupby('species')] without [observed]; the default
    of the pandas it is written for (the one where an integer key on a
    label-indexed Series is a position, lines 53-54) is [False]. *)
Definition groupby_observed_default : bool := false.

Section Analysis.

(** Floating-point numbers, with the test for a missing value and the
    mean of a column of a group as pandas computes it. *)
Variable float : Type.
Variable is_nan : float -> bool.
Variable mean : list float -> float.

(** The numeric columns, named as [iris.feature_names] names them. *)
Record measurements : Type := Measurements
  { sepal_length : float;
    sepal_width : float;
    petal_length : float;
    petal_width : float }.

(** What [load_iris()] returns: the samples of the bundled file, each
    with its class code, and the class names. *)
Record bunch : Type := Bunch
  { samples : list (measurements * Z);
    target_names : list string }.

(** A row of the frame; [species] is the code of the label in the
    categories of the column, [None] for a missing label. *)
Record row : Type := Row
  { values : measurements;
    species : option nat }.

(** The frame: the categories of the [species] column, in their order,
    and the rows. *)
Record table : Type := Table
  { categories : list string;
    rows : list row }.

(** [sklearn.datasets.load_iris()]: the bundled data set, or the
    exception of not finding it. *)
Variable load_iris : exn + bunch.

(** Rendering of the four figures to PNG bytes (everything between
    [plt.figure] and the file write inside [savefig]); may raise. *)
Variable plot_trend plot_bar plot_hist plot_scatter : table -> exn + list byte.

(** [pd.Categorical.from_codes(codes, categories)] *)
Definition from_codes (codes : list Z) (cats : list string)
    : M (list (option nat)) :=
  if negb (bool_decide (NoDup cats)) then raise ValueError
  else if forallb (fun c => (-1 <=? c) && (c <? Z.of_nat (length cats)))%Z codes
  then ret (map (fun c => if (c =? -1)%Z then None else Some (Z.to_nat c)) codes)
  else raise ValueError.

Definition row_isnull (r : row) : bool :=
  is_nan (sepal_length (values r)) || is_nan (sepal_width (values r))
  || is_nan (petal_length (values r)) || is_nan (petal_width (values r))
  || bool_decide (species r = None).

(** [df.dropna()] *)
Definition dropna (df : table) : table :=
  Table (categories df) (filter (fun r => row_isnull r = false) (rows df)).

Definition lift {A} (r : exn + A) : M A :=
  match r with inl e => raise e | inr a => ret a end.

(** The body of the [try] statement of the loader. *)
Definition load_body : M table :=
  iris <- lift load_iris ;;
  labels <- from_codes (samples iris).*2 (target_names iris) ;;
  let df := Table (target_names iris)
              (zip_with Row (samples iris).*1 labels) in
  print (Text "=== Data Exploration ===") ;;;
  print (Text "First 5 rows of the dataset:") ;;;
  print (Shown "df.head()") ;;;
  print (Text "Dataset Info:") ;;;
  print (Shown "df.info()") ;;;
  print (Text "Missing Values:") ;;;
  print (Shown "df.isnull().sum()") ;;;
  if existsb row_isnull (rows df) then
    print (Text "Cleaning missing values by dropping rows with NaN...") ;;;
    ret (dropna df)
  else ret df.

(** [None] is Python's [None]. *)
Definition load_and_explore_data : M (option table) :=
  try_except (df <- load_body ;; ret (Some df))
    (fun e => print (LoadFailed e) ;;; ret None).

(** One row of the aggregate: the mean of each numeric column. *)
Definition group_mean (g : list row) : measurements :=
  Measurements (mean (map (fun r => sepal_length (values r)) g))
               (mean (map (fun r => sepal_width (values r)) g))
               (mean (map (fun r => petal_length (values r)) g))
               (mean (map (fun r => petal_width (values r)) g)).

(** The rows of one category. *)
Definition group_rows (df : table) (code : nat) : list row :=
  filter (fun r => species r = Some code) (rows df).

(** [df.groupby('species', observed=...).mean()]: one entry for each
    category, in the order of the categories; a category without rows
    is left out only under [observed].  Rows with a missing label are
    in no group. *)
Definition groupby_mean (observed : bool) (df : table)
    : list (string * measurements) :=
  omap (fun '(code, c) =>
          let g := group_rows df code in
          if observed && bool_decide (g = []) then None
          else Some (c, group_mean g))
       (imap pair (categories df)).

Definition analyze_data (df : table) : M (list (string * measurements)) :=
  print (Text "=== Data Analysis ===") ;;;
  print (Text "Basic Statistics:") ;;;
  print (Shown "df.describe()") ;;;
  let group_means := groupby_mean groupby_observed_default df in
  print (Text "Mean values by species:") ;;;
  print (Shown "group_means") ;;;
  print (Text "=== Observations ===") ;;;
  print (Text "- The dataset contains measurements for 150 iris flowers across three species.") ;;;
  print (Text "- Numerical columns: sepal length, sepal width, petal length, petal width (all in cm).") ;;;
  name0 <- at_position group_means.*1 0 ;;
  _ <- at_position (map (fun g => petal_length g.2) group_means) 0 ;;
  print (SmallestPetal name0) ;;;
  name2 <- at_position group_means.*1 2 ;;
  _ <- at_position (map (fun g => sepal_length g.2) group_means) 2 ;;
  print (LargestSepal name2) ;;;
  ret group_means.

(** [plt.savefig(path)] of a rendered figure. *)
Definition savefig (name : string) (png : list byte) : M unit :=
  write_file (Join charts_dir name) png.

Definition create_visualizations (df : table) : M unit :=
  os_makedirs_exist_ok charts_dir ;;;
  png <- lift (plot_trend df) ;;
  savefig trend_png png ;;;
  png <- lift (plot_bar df) ;;
  savefig bar_png png ;;;
  png <- lift (plot_hist df) ;;
  savefig hist_png png ;;;
  png <- lift (plot_scatter df) ;;
  savefig scatter_png png.

Definition main : M unit :=
  df <- load_and_explore_data ;;
  match df with
  | None => ret tt
  | Some df =>
      _ <- analyze_data df ;;
      create_visualizations df ;;;
      print (Text "=== Final Notes ===") ;;;
      print (Text "- Visualizations are saved in the 'Fetched_Images' directory.") ;;;
      print (Text "- The line chart shows petal length trends, though not time-based, it highlights species differences.") ;;;
      print (Text "- The bar chart confirms setosa has the shortest average petal length.") ;;;
      print (Text "- The histogram shows sepal length is roughly normally distributed.") ;;;
      print (Text "- The scatter plot reveals clear separation between species based on sepal and petal lengths.")
  end.

(** The categories that label at least one row. *)
Definition present (df : table) : list string :=
  omap (fun '(code, c) =>
          if bool_decide (group_rows df code = []) then None else Some c)
       (imap pair (categories df)).

(** A valid observation table: distinct categories, every label one of
    them, no missing value. *)
Definition valid_table (df : table) : Prop :=
  NoDup (categories df) /\
  Forall (fun r => row_isnull r = false /\
                   exists code, species r = Some code /\
                                code < length (categories df)) (rows df).

(** What the loader returns, read off the bundled data alone. *)
Definition loaded : option table :=
  match load_iris with
  | inl _ => None
  | inr iris =>
      if bool_decide (NoDup (target_names iris))
         && forallb (fun c => (-1 <=? c) && (c <? Z.of_nat (length (target_names iris))))%Z
              (samples iris).*2
      then
        let df := Table (target_names iris)
                    (zip_with Row (samples iris).*1
                       (map (fun c => if (c =? -1)%Z then None else Some (Z.to_nat c))
                            (samples iris).*2)) in
        Some (dropna df)
      else None
  end.

End Analysis.

(** ** Libraries.py: the command line *)

(** [s.split(',')] *)
Fixpoint split_commas (s : string) : list string :=
  match s with
  | EmptyString => [EmptyString]
  | String c r =>
      if Ascii.eqb c ","
      then EmptyString :: split_commas r
      else match split_commas r with
           | first :: others => String c first :: others
           | [] => [String c EmptyString]
           end
  end.



Module Libraries.
Section Main.

Context {digest : Type} `{EqDecision digest}.
Variable urlparse : string -> option parse_result.
Variable py_int : string -> option Z.
Variable sha256 : list byte -> digest.
(** [str.strip()] *)
Variable strip : string -> string.

(** Line 104: the stripped pieces of the input that are not empty. *)
Definition read_urls (urls_input : string) : list string :=
  filter (fun url => url <> "") (map strip (split_commas urls_input)).

(** The [for url in urls] loop; the [i]-th call meets the network
    and the clock [envs i]. *)
Fixpoint fetch_each (envs : nat -> env) (i : nat) (urls : list string)
    (successful_fetches : nat) : M nat :=
  match urls with
  | [] => ret successful_fetches
  | url :: rest =>
      fetched <- fetch_and_save_image urlparse py_int sha256 (envs i) url
                   default_output_dir ;;
      fetch_each envs (S i) rest
        (if fetched then S successful_fetches else successful_fetches)
  end.

(** The text of the last line. *)
Definition summary (successful_fetches total : nat) : line :=
  Text ("Connection strengthened. Community enriched. ("
        +:+ pretty successful_fetches +:+ "/" +:+ pretty total
        +:+ " images fetched)").

(** [main()]; [stdin] is what [input] gives: the line typed, or the
    exception of a closed input.  The prompt of [input] goes to the
    output like a printed line; blank lines and the cross mark of the
    refusal are left out of the texts. *)
Definition main (stdin : exn + string) (envs : nat -> env) : M unit :=
  print (Text "Welcome to the Ubuntu Image Fetcher") ;;;
  print (Text "A tool for mindfully collecting images from the web") ;;;
  print (Text "Please enter image URL(s) (comma-separated for multiple): ") ;;;
  urls_input <- lift stdin ;;
  let urls := read_urls urls_input in
  if bool_decide (urls = []) then
    print (Text "No valid URLs provided.") ;;; ret tt
  else
    let successful_fetches := 0 in
    successful_fetches <- fetch_each envs 0 urls successful_fetches ;;
    print (summary successful_fetches (length urls)).

End Main.
End Libraries.

(** ** Concrete library functions and inputs

    Instances of the library functions on plain inputs, to run the
    scripts on examples. *)

Module Sample.

(** [urlparse] on URLs of the shape [scheme://host/path], without
    query or fragment. *)
Fixpoint split_at_colon (s : string) : option (string * string) :=
  match s with
  | EmptyString => None
  | String c r =>
      if Ascii.eqb c ":" then Some (EmptyString, r)
      else match split_at_colon r with
           | Some (a, b) => Some (String c a, b)
           | None => None
           end
  end.

(** The text from the first slash on. *)
Fixpoint from_slash (s : string) : string :=
  match s with
  | EmptyString => EmptyString
  | String c r => if Ascii.eqb c "/" then s else from_slash r
  end.

Definition urlparse (url : string) : option parse_result :=
  match split_at_colon url with
  | Some (sch, String "/" (String "/" rest)) =>
      Some (ParseResult (Str.lower sch) (from_slash rest))
  | _ => Some (ParseResult "" url)
  end.

(** [int] on strings of decimal digits (a sign, blanks around the
    number and underscores between digits, which [int] reads too, are
    not read here). *)
Fixpoint digits (acc : Z) (s : string) : option Z :=
  match s with
  | EmptyString => Some acc
  | String c r =>
      let n := Z.of_N (N_of_ascii c) in
      if ((48 <=? n) && (n <=? 57))%Z then digits (10 * acc + (n - 48)) r
      else None
  end.

Definition py_int (s : string) : option Z :=
  match s with
  | EmptyString => None
  | _ => digits 0 s
  end.

(** A digest without collisions: the content itself. *)
Definition sha256 (data : list byte) : list byte := data.

Definition png_a : list byte := [x89; x50; x4e; x47; x0a].
Definition png_b : list byte := [x89; x50; x4e; x47; x0b].

Definition image (data : list byte) : response :=
  Response 200 (Some "image/png") None data.

(** A network that answers every request with the same image. *)
Definition serving (data : list byte) : env :=
  Env (fun _ => inr (image data)) "20240101_120000".

Definition empty_world : world := World ∅ [].

Definition fetch := fetch_and_save_image (digest := list byte) urlparse py_int sha256.

Definition url_a : string := "http://example.org/cats/a.png".
Definition url_b : string := "http://example.org/dogs/a.png".
Definition url_temp : string := "http://example.org/temp_a.png".



(** A directory with one file that the process may not open. *)
Definition locked_world : world :=
  World {[ "out" := Directory {[ "old.png" := Reg (File png_b false false) ]} ]} [].

(** The chart directory after an image has been fetched into it. *)
Definition visited_world : world :=
  World {[ "Fetched_Images" := Directory {[ "cat.jpg" := Reg (File png_a true true) ]} ]} [].

(** Numbers: tenths of a millimetre, [None] for NaN; the mean skips
    missing values and is NaN for an empty group. *)
Definition num : Type := option Z.

Definition is_nan (x : num) : bool := bool_decide (x = None).

Definition mean (l : list num) : num :=
  let xs := omap id l in
  if bool_decide (xs = []) then None
  else Some (foldr Z.add 0%Z xs / Z.of_nat (length xs))%Z.

Definition three_species : list string := ["setosa"; "versicolor"; "virginica"].

Definition flower (sl sw pl pw : Z) (code : nat) : row num :=
  Row num (Measurements num (Some sl) (Some sw) (Some pl) (Some pw)) (Some code).

(** A table of the bundled kind in which only the first species
    occurs. *)
Definition only_setosa : table num :=
  Table num three_species [flower 51 35 14 2 0; flower 49 30 14 2 0].

(** A table of the bundled kind without rows. *)
Definition no_rows : table num := Table num three_species [].

(** A table with all three species. *)
Definition all_species : table num :=
  Table num three_species
    [flower 51 35 14 2 0; flower 70 32 47 14 1; flower 63 33 60 25 2].

(** Renderers that produce a fixed picture each. *)
Definition plot (tag : byte) (df : table num) : exn + list byte :=
  inr [x89; x50; x4e; x47; tag].

Definition visualize :=
  create_visualizations num (plot x01) (plot x02) (plot x03) (plot x04).

Definition analyze := analyze_data num mean.


End Sample.

(** ** More inputs *)

Module Cases.

Definition clock : string := "20240101_120000".

Definition url_ftp : string := "ftp://example.org/a.png".

(** A network that is down. *)
Definition offline : env := Env (fun _ => inl RequestException) clock.







(** A state where the chart directory is a regular file. *)
Definition blocked_world : world := World {[ "Fetched_Images" := NotDir ]} [].

Definition reading (sl sw pl pw : Z) : measurements Sample.num :=
  Measurements Sample.num (Some sl) (Some sw) (Some pl) (Some pw).

(** Bundled data with one sample of each of three classes. *)
Definition iris : bunch Sample.num :=
  Bunch Sample.num
    [(reading 51 35 14 2, 0%Z); (reading 70 32 47 14, 1%Z);
     (reading 63 33 60 25, 2%Z)]
    Sample.three_species.

(** Bundled data with two classes only. *)
Definition two_classes : bunch Sample.num :=
  Bunch Sample.num
    [(reading 51 35 14 2, 0%Z); (reading 70 32 47 14, 1%Z)]
    ["setosa"; "versicolor"].


Definition load (data : exn + bunch Sample.num) :=
  load_and_explore_data Sample.num Sample.is_nan data.

Definition pipeline (data : exn + bunch Sample.num) :=
  main Sample.num Sample.is_nan Sample.mean data
    (Sample.plot x01) (Sample.plot x02) (Sample.plot x03) (Sample.plot x04).

(** A renderer that fails. *)
Definition broken (df : table Sample.num) : exn + list byte := inl ValueError.

(** The ASCII characters [str.strip] removes: tab to carriage return,
    the separators 0x1c-0x1f, the space. *)
Definition is_space (c : ascii) : bool :=
  let n := N_of_ascii c in
  ((9 <=? n) && (n <=? 13) || (28 <=? n) && (n <=? 32))%N.

Fixpoint lstrip (s : string) : string :=
  match s with
  | String c r => if is_space c then lstrip r else s
  | EmptyString => EmptyString
  end.

Fixpoint rstrip (s : string) : string :=
  match s with
  | String c r =>
      match rstrip r with
      | EmptyString => if is_space c then EmptyString else String c EmptyString
      | r' => String c r'
      end
  | EmptyString => EmptyString
  end.

(** [str.strip] on ASCII text. *)
Definition strip (s : string) : string := rstrip (lstrip s).



Definition url_temp_png : string := "http://example.org/temp.png".

(** A standard output with the ASCII encoding: it takes none of the
    lines that carry the check mark or the cross. *)
Definition ascii_stdout : stream := fun l =>
  match l with
  | Text _ | Shown _ | SmallestPetal _ | LargestSepal _ => true
  | _ => false
  end.

(** The fetcher writing to a given standard output. *)
Definition fetch_to (takes : stream) :=
  Encoded.fetch_and_save_image (digest := list byte) Sample.urlparse
    Sample.py_int Sample.sha256 takes.

End Cases.

(** ** Notions used in the statements *)

(** A statement that ends, normally or with an exception, from every
    state. *)
Definition terminates {A} (m : M A) : Prop :=
  forall w, (m w).1 <> Diverge.

(** The name tried by [get_unique_filename] at a counter. *)
Definition candidate (base ext : string) (counter : nat) : string :=
  base +:+ "_" +:+ pretty counter +:+ ext.

(** The entries of [out] once [os.makedirs(out, exist_ok=True)] has
    succeeded: those it had, none if it was not there. *)
Definition entries_after_makedirs (f : gmap string entry) (out : string)
    : option (gmap string node) :=
  match f !! out with
  | None => Some ∅
  | Some (Directory d) => Some d
  | Some NotDir => None
  end.

(** Names the fetcher takes for temporary files (line 74). *)
Definition is_temp (n : string) : bool := Str.startswith n "temp_".

(** [final] is what [get_unique_filename] picks for [name] among the
    entries [d]: [name] itself when free, else the first free name
    among [base_1ext], [base_2ext], ... *)
Definition unique_name_for (d : gmap string node) (name final : string) : Prop :=
  (exists_in d name = false /\ final = name) \/
  (exists_in d name = true /\
   exists j, 1 <= j /\ final = candidate (splitext name).1 (splitext name).2 j /\
             exists_in d final = false /\
             forall i, 1 <= i < j ->
               exists_in d (candidate (splitext name).1 (splitext name).2 i) = true).

Section FetcherNotions.

Context {digest : Type} `{EqDecision digest}.
Variable urlparse : string -> option parse_result.
Variable py_int : string -> option Z.
Variable sha256 : list byte -> digest.

(** The request for [url] is answered by [r] and passes lines 35-54:
    the scheme, the status, the content type, the declared length. *)
Definition accepted (e : env) (url : string) (parsed_url : parse_result)
    (r : response) : Prop :=
  urlparse url = Some parsed_url /\
  (scheme parsed_url = "http" \/ scheme parsed_url = "https") /\
  requests_get e url = inr r /\
  ~ (400 <= status_code r < 600)%Z /\
  is_valid_image_content_type r = true /\
  (content_length r = None \/ content_length r = Some "" \/
   exists s n, content_length r = Some s /\ py_int s = Some n /\
               (n <= max_content_length)%Z).


(** The test of lines 74-77 on one name of the listing, when the file
    can be read. *)
Definition is_duplicate (d : gmap string node) (h : digest) (n : string) : bool :=
  negb (is_temp n) &&
  match lookup_node d n with
  | Some (Reg f) => bool_decide (sha256 (content f) = h)
  | _ => false
  end.

(** No permanent file of the directory has digest [h]. *)
Definition fresh_for (d : gmap string node) (h : digest) : Prop :=
  forall n f, d !! n = Some (Reg f) -> is_temp n = false ->
              sha256 (content f) <> h.

End FetcherNotions.

(** Every regular file of the directory can be read and written by the
    process. *)
Definition healthy (d : gmap string node) : Prop :=
  forall n f, d !! n = Some (Reg f) -> readable f = true /\ writable f = true.

(** The same, as a test that can be run. *)
Definition healthyb (d : gmap string node) : bool :=
  forallb (fun '(_, x) =>
             match x with
             | Reg f => readable f && writable f
             | SubDir => true
             end) (map_to_list d).

(** [n] is a permanent file holding [data]: a regular file whose name
    is not one of a temporary file. *)
Definition permanent_with (d : gmap string node) (data : list byte)
    (n : string) : Prop :=
  is_temp n = false /\ exists f, d !! n = Some (Reg f) /\ content f = data.

(** The directory after a successful [open(n, 'wb')] and write of
    [data]: a file that was there keeps its read permission. *)
Definition rewritten (d : gmap string node) (n : string) (data : list byte)
    : gmap string node :=
  <[n := Reg (File data
                (match d !! n with Some (Reg f) => readable f | _ => true end)
                true)]> d.

(** A statement that leaves the state as it found it, however it
    ends. *)
Definition read_only {A} (m : M A) : Prop :=
  forall w, (m w).2 = w.

(** A statement that keeps a property of the state, however it
    ends. *)
Definition keeps {A} (I : world -> Prop) (m : M A) : Prop :=
  forall w, I w -> I (m w).2.

(** What a state [w] has kept of an earlier state [w0] when only the
    entry [temp] of the directory [out] may have been written or
    removed and only new names may have been added: the other paths
    are what they were, [out] is still a directory if it was one,
    with every other entry it had, and is still not one if it was
    not. *)
Definition frame_inv (out temp : string) (w0 w : world) : Prop :=
  (forall p, p <> out -> fs w !! p = fs w0 !! p) /\
  (forall d0, fs w0 !! out = Some (Directory d0) ->
     exists d, fs w !! out = Some (Directory d) /\
               forall n x, n <> temp -> d0 !! n = Some x -> d !! n = Some x) /\
  (fs w0 !! out = Some NotDir -> fs w !! out = Some NotDir).

(** [open(n, 'wb')] succeeds on the entries [d]: nothing is there
    under the name, or a regular file that may be written. *)
Definition can_write (d : gmap string node) (n : string) : Prop :=
  match d !! n with
  | Some (Reg f) => writable f = true
  | Some SubDir => False
  | None => True
  end.



(** * Verification *)

(** ** Strings *)

Lemma string_app_length (s t : string) :
  String.length (s +:+ t) = String.length s + String.length t.
Proof. induction s as [|c s IH]; simpl; [done | by rewrite IH]. Qed.

Lemma string_app_inv_tail (s1 s2 t : string) :
  s1 +:+ t = s2 +:+ t -> s1 = s2.
Proof.
  revert s2. induction s1 as [|c s1 IH]; intros [|c2 s2] Heq.
  - done.
  - apply (f_equal String.length) in Heq.
    rewrite !string_app_length in Heq. simpl in Heq. exfalso; lia.
  - apply (f_equal String.length) in Heq.
    rewrite !string_app_length in Heq. simpl in Heq. exfalso; lia.
  - change (String c (s1 +:+ t) = String c2 (s2 +:+ t)) in Heq.
    injection Heq as -> Heq. f_equal. by apply IH.
Qed.

#[global] Instance candidate_inj (base ext : string) :
  Inj (=) (=) (candidate base ext).
Proof.
  intros j k Heq. unfold candidate in Heq.
  apply (inj (String.app base)) in Heq.
  change (String "_" (pretty j +:+ ext) = String "_" (pretty k +:+ ext)) in Heq.
  injection Heq as Heq. apply string_app_inv_tail in Heq.
  by apply (inj pretty) in Heq.
Qed.

Lemma candidate_not_dot (base ext : string) (k : nat) :
  is_dot_entry (candidate base ext k) = false.
Proof.
  assert (Hc : forall s t, Str.contains "_" (s +:+ "_" +:+ t) = true).
  { intros s t. induction s as [|c s IH]; [done|].
    change (Ascii.eqb c "_" || Str.contains "_" (s +:+ "_" +:+ t) = true).
    rewrite IH. by destruct (Ascii.eqb c "_"). }
  unfold is_dot_entry. apply orb_false_iff.
  split; apply bool_decide_eq_false; intros Heq;
    specialize (Hc base (pretty k +:+ ext)); fold (candidate base ext k) in Hc;
    rewrite Heq in Hc; discriminate.
Qed.

(** ** The monad *)

Lemma terminates_ret {A} (a : A) : terminates (ret a).
Proof. by intros w. Qed.

Lemma terminates_raise {A} (e : exn) : terminates (raise (A := A) e).
Proof. by intros w. Qed.

Lemma terminates_bind {A B} (m : M A) (k : A -> M B) :
  terminates m -> (forall a, terminates (k a)) -> terminates (bind m k).
Proof.
  intros Hm Hk w. unfold bind. specialize (Hm w).
  destruct (m w) as [[a|e|] w']; simpl in *; [apply Hk | done | done].
Qed.

Lemma terminates_print (l : line) : terminates (print l).
Proof. by intros w. Qed.

Lemma terminates_get_fs : terminates get_fs.
Proof. by intros w. Qed.

Lemma terminates_set_fs f : terminates (set_fs f).
Proof. by intros w. Qed.

Lemma terminates_lift {A} (r : exn + A) : terminates (lift r).
Proof. destruct r; [apply terminates_raise | apply terminates_ret]. Qed.

Lemma terminates_try_except {A} (body : M A) (h : exn -> M A) :
  terminates body -> (forall e, terminates (h e)) -> terminates (try_except body h).
Proof.
  intros Hb Hh w. unfold try_except. specialize (Hb w).
  destruct (body w) as [[a|e|] w']; simpl in *; [done | apply Hh | done].
Qed.

Create HintDb term discriminated.
#[export] Hint Resolve terminates_ret terminates_raise terminates_print
  terminates_get_fs terminates_set_fs terminates_lift : term.

(** Closes goals [terminates m] for straight-line code over the
    primitives. *)
Ltac term_step :=
  lazymatch goal with
  | |- terminates (bind _ _) => apply terminates_bind; [|intros ?]
  | |- terminates (if ?b then _ else _) => destruct b
  | |- terminates (match ?x with _ => _ end) => destruct x
  | |- terminates _ => solve [auto with term]
  end.
Ltac term_auto := repeat term_step.

Lemma terminates_entries_of p : terminates (entries_of p).
Proof. unfold entries_of. term_auto. Qed.
#[export] Hint Resolve terminates_entries_of : term.

Lemma terminates_set_entries p d : terminates (set_entries p d).
Proof. unfold set_entries. term_auto. Qed.
#[export] Hint Resolve terminates_set_entries : term.

Lemma terminates_makedirs p : terminates (os_makedirs_exist_ok p).
Proof. unfold os_makedirs_exist_ok. term_auto. Qed.

Lemma terminates_exists p : terminates (os_path_exists p).
Proof. unfold os_path_exists. term_auto. Qed.

Lemma terminates_isfile p : terminates (os_path_isfile p).
Proof. unfold os_path_isfile. term_auto. Qed.

Lemma terminates_listdir p : terminates (os_listdir p).
Proof. unfold os_listdir. term_auto. Qed.

Lemma terminates_write_file p data : terminates (write_file p data).
Proof. unfold write_file. term_auto. Qed.

Lemma terminates_read_file p : terminates (read_file p).
Proof. unfold read_file. term_auto. Qed.

Lemma terminates_remove p : terminates (os_remove p).
Proof. unfold os_remove. term_auto. Qed.

Lemma terminates_rename p q : terminates (os_rename p q).
Proof. unfold os_rename. term_auto. Qed.

#[export] Hint Resolve terminates_makedirs terminates_exists terminates_isfile
  terminates_listdir terminates_write_file terminates_read_file
  terminates_remove terminates_rename : term.

(** ** Running the file-system primitives in a known directory *)

Section Runs.

Variables (w : world) (out : string) (d : gmap string node).
Hypothesis Hdir : fs w !! out = Some (Directory d).

Lemma run_entries_of : entries_of out w = (Return d, w).
Proof using Hdir. unfold entries_of, bind, get_fs. by rewrite Hdir. Qed.

Lemma run_exists (n : string) :
  os_path_exists (Join out n) w = (Return (exists_in d n), w).
Proof using Hdir. unfold os_path_exists, bind, get_fs. simpl. by rewrite Hdir. Qed.

Lemma run_isfile (n : string) :
  os_path_isfile (Join out n) w
  = (Return (match lookup_node d n with Some (Reg _) => true | _ => false end), w).
Proof using Hdir. unfold os_path_isfile, bind, get_fs. simpl. by rewrite Hdir. Qed.

Lemma run_listdir : os_listdir out w = (Return (map_to_list d).*1, w).
Proof using Hdir. unfold os_listdir, bind. by rewrite run_entries_of. Qed.

Lemma run_loop_bound : loop_bound out w = (Return (size d + 3), w).
Proof using Hdir. unfold loop_bound, bind, get_fs. by rewrite Hdir. Qed.

End Runs.

Lemma run_makedirs (w : world) (out : string) (d : gmap string node) :
  out <> "" ->
  entries_after_makedirs (fs w) out = Some d ->
  exists w', os_makedirs_exist_ok out w = (Return tt, w') /\
             fs w' !! out = Some (Directory d) /\
             stdout w' = stdout w /\
             (forall x, <[out := x]> (fs w') = <[out := x]> (fs w)).
Proof.
  intros Hne Hd. unfold os_makedirs_exist_ok, entries_after_makedirs in *.
  rewrite bool_decide_eq_false_2 by done.
  unfold bind, get_fs, set_fs. destruct (fs w !! out) as [[d'|]|] eqn:Hl.
  - injection Hd as ->. exists w. by rewrite Hl.
  - done.
  - injection Hd as <-. eexists. split; [done|]. simpl.
    rewrite lookup_insert_eq. split_and!; [done..|].
    intros x. by rewrite insert_insert_eq.
Qed.

(** ** [get_unique_filename]: the [while True] loop returns *)

Lemma exists_in_candidate (d : gmap string node) base ext k :
  exists_in d (candidate base ext k)
  = bool_decide (candidate base ext k ∈ dom d).
Proof.
  unfold exists_in, lookup_node. rewrite candidate_not_dot.
  apply bool_decide_ext. by rewrite elem_of_dom.
Qed.

(** Among [size d + 1] distinct names one is not an entry of [d]. *)
Lemma free_candidate (d : gmap string node) (base ext : string) (k : nat) :
  exists j, k <= j < k + (size d + 1) /\
            exists_in d (candidate base ext j) = false.
Proof.
  set (L := candidate base ext <$> seq k (size d + 1)).
  destruct (decide (Forall (fun c => c ∈ dom d) L)) as [Hall|Hex].
  - exfalso.
    assert (Hnd : NoDup L).
    { apply (NoDup_fmap_2 _). apply NoDup_seq. }
    assert (Hsub : list_to_set (C := gset string) L ⊆ dom d).
    { intros c Hc. apply elem_of_list_to_set in Hc.
      by apply (proj1 (Forall_forall _ _) Hall). }
    apply subseteq_size in Hsub.
    rewrite size_list_to_set, size_dom in Hsub by done.
    unfold L in Hsub. rewrite length_fmap, length_seq in Hsub. lia.
  - apply not_Forall_Exists in Hex; [|intros c; apply _].
    apply Exists_exists in Hex as (c & Hc & Hnot).
    apply list_elem_of_fmap in Hc as (j & -> & Hj).
    apply elem_of_seq in Hj. exists j. split; [lia|].
    rewrite exists_in_candidate. by apply bool_decide_eq_false.
Qed.

Lemma run_loop (w : world) (out base ext : string) (d : gmap string node) :
  fs w !! out = Some (Directory d) ->
  forall fuel k,
    (exists j, k <= j < k + fuel /\ exists_in d (candidate base ext j) = false) ->
    exists j, get_unique_filename_loop fuel out base ext k w
              = (Return (Join out (candidate base ext j)), w) /\
              k <= j /\ exists_in d (candidate base ext j) = false /\
              forall i, k <= i < j -> exists_in d (candidate base ext i) = true.
Proof.
  intros Hdir fuel. induction fuel as [|fuel IH]; intros k (j & Hj & Hfree).
  - lia.
  - simpl. unfold bind. rewrite (run_exists _ _ _ Hdir).
    fold (candidate base ext k).
    destruct (exists_in d (candidate base ext k)) eqn:Hk; simpl.
    + destruct (IH (S k)) as (j' & Hrun & Hle & Hf & Hbelow).
      { exists j. split; [|done].
        destruct (decide (j = k)) as [->|]; [congruence | lia]. }
      exists j'. split_and!; [done | lia | done |].
      intros i Hi. destruct (decide (i = k)) as [->|]; [done|].
      apply Hbelow. lia.
    + exists k. split_and!; [done | lia | done | intros; lia].
Qed.

Lemma run_get_unique_filename (w : world) (out name : string)
    (d : gmap string node) :
  fs w !! out = Some (Directory d) ->
  exists final, get_unique_filename (Join out name) w = (Return (Join out final), w) /\
                unique_name_for d name final.
Proof.
  intros Hdir. unfold get_unique_filename, bind.
  rewrite (run_exists _ _ _ Hdir). simpl.
  destruct (exists_in d name) eqn:Hex; simpl.
  - destruct (splitext name) as [base ext] eqn:Hsplit.
    rewrite (run_loop_bound _ _ _ Hdir).
    destruct (run_loop w out base ext d Hdir (size d + 3) 1)
      as (j & Hrun & Hle & Hfree & Hbelow).
    { destruct (free_candidate d base ext 1) as (j & Hj & Hf).
      exists j. split; [lia | done]. }
    exists (candidate base ext j). split; [done|].
    right. split; [done|]. exists j. rewrite Hsplit. simpl. by split_and!.
  - exists name. split; [done|]. by left.
Qed.

Lemma unique_name_free (d : gmap string node) (name final : string) :
  unique_name_for d name final -> exists_in d final = false.
Proof. intros [[? ->]|[_ (j & _ & _ & ? & _)]]; done. Qed.

Lemma terminates_get_unique_filename (p : path) :
  terminates (get_unique_filename p).
Proof.
  intros w. destruct p as [out name].
  destruct (fs w !! out) as [[d|]|] eqn:Hdir.
  - destruct (run_get_unique_filename w out name d Hdir) as (final & -> & _).
    done.
  - unfold get_unique_filename, os_path_exists, bind, get_fs.
    cbn [pdir pname]. by rewrite Hdir.
  - unfold get_unique_filename, os_path_exists, bind, get_fs.
    cbn [pdir pname]. by rewrite Hdir.
Qed.
#[export] Hint Resolve terminates_get_unique_filename : term.

(** ** The fetcher *)

Section FetcherProofs.

Context {digest : Type} `{EqDecision digest}.
Variable urlparse : string -> option parse_result.
Variable py_int : string -> option Z.
Variable sha256 : list byte -> digest.

Abbreviation fetch := (fetch_and_save_image urlparse py_int sha256).
Abbreviation body_of := (fetch_body urlparse py_int sha256).

(** *** Every statement of the fetcher ends *)

Lemma terminates_calculate_file_hash p :
  terminates (calculate_file_hash sha256 p).
Proof. unfold calculate_file_hash. term_auto. Qed.
#[local] Hint Resolve terminates_calculate_file_hash : term.

Lemma terminates_scan_existing url out temp h listing :
  terminates (scan_existing sha256 url out temp h listing).
Proof. induction listing as [|n rest IH]; simpl; term_auto. Qed.
#[local] Hint Resolve terminates_scan_existing : term.

Lemma terminates_raise_for_status r : terminates (raise_for_status r).
Proof. unfold raise_for_status. term_auto. Qed.

Lemma terminates_content_length_too_large r :
  terminates (content_length_too_large py_int r).
Proof. unfold content_length_too_large. term_auto. Qed.
#[local] Hint Resolve terminates_raise_for_status
  terminates_content_length_too_large : term.

Lemma terminates_save_image url out filename r :
  terminates (save_image sha256 url out filename r).
Proof. unfold save_image. term_auto. Qed.
#[local] Hint Resolve terminates_save_image : term.

Lemma terminates_fetch_body e url out : terminates (body_of e url out).
Proof. unfold fetch_body. term_auto. Qed.

Lemma terminates_fetch_handler url ex : terminates (fetch_handler url ex).
Proof. unfold fetch_handler. term_auto. Qed.

(** The diagnostic of the [except] clause that catches [ex]. *)
Lemma run_fetch_handler url ex w :
  fetch_handler url ex w
  = (Return false,
     World (fs w)
       (stdout w ++ [if is_RequestException ex then ConnectionError url ex
                     else ErrorOccurred url ex])).
Proof. unfold fetch_handler. by destruct (is_RequestException ex). Qed.

(** On a standard output that takes every line,
    [fetch_and_save_image] returns a boolean from every state and for
    every URL, directory, network answer and clock: it neither lets an
    exception through nor loops.  What the body returns is returned as
    it is; an exception of the body, whatever its class, becomes one
    printed diagnostic and [False], the file system staying as the
    body left it.  ([print_failure_escapes] below is the same call on
    a standard output that refuses the diagnostic.) *)
Theorem fetch_and_save_image_total (e : env) (url out : string) (w : world) :
  (exists b w', fetch e url out w = (Return b, w')) /\
  match body_of e url out w with
  | (Return b, w') => fetch e url out w = (Return b, w')
  | (Raise ex, w') =>
      exists diagnostic,
        fetch e url out w
        = (Return false, World (fs w') (stdout w' ++ [diagnostic]))
  | (Diverge, _) => False
  end.
Proof.
  pose proof (terminates_fetch_body e url out w) as Hterm.
  unfold fetch_and_save_image, try_except.
  destruct (body_of e url out w) as [[b|ex|] w'] eqn:Hbody; simpl in *.
  - split; [by exists b, w' | done].
  - rewrite run_fetch_handler. split; [by eexists _, _ | by eexists].
  - done.
Qed.

(** *** Rejections before the directory is touched *)


(** *** Storing an accepted image in a healthy directory *)

Lemma temp_not_dot (filename : string) :
  is_dot_entry ("temp_" +:+ filename) = false.
Proof.
  unfold is_dot_entry. apply orb_false_iff.
  split; apply bool_decide_eq_false; intros Heq;
    apply (f_equal (fun s => String.get 0 s)) in Heq; discriminate.
Qed.

Lemma lookup_node_temp (d : gmap string node) (filename : string) :
  lookup_node d ("temp_" +:+ filename) = d !! ("temp_" +:+ filename).
Proof. unfold lookup_node. by rewrite temp_not_dot. Qed.

Lemma is_temp_temp (filename : string) : is_temp ("temp_" +:+ filename) = true.
Proof. by destruct filename. Qed.

Lemma lookup_node_Reg (d : gmap string node) (n : string) (f : file) :
  lookup_node d n = Some (Reg f) -> d !! n = Some (Reg f).
Proof. unfold lookup_node. by destruct (is_dot_entry n). Qed.

Lemma run_write_file (w : world) (out n : string) (data : list byte)
    (d : gmap string node) :
  fs w !! out = Some (Directory d) ->
  healthy d ->
  is_dot_entry n = false ->
  d !! n <> Some SubDir ->
  write_file (Join out n) data w
  = (Return tt,
     World (<[out := Directory (<[n := Reg (File data true true)]> d)]> (fs w))
           (stdout w)).
Proof.
  intros Hdir Hh Hdot Hsub. unfold write_file, bind. cbn [pdir pname].
  rewrite (run_entries_of _ _ _ Hdir). unfold lookup_node. rewrite Hdot.
  destruct (d !! n) as [[f|]|] eqn:Hn; [|done|].
  - destruct (Hh n f Hn) as [-> ->].
    unfold set_entries, bind, get_fs, set_fs. done.
  - unfold set_entries, bind, get_fs, set_fs. done.
Qed.

Lemma run_calculate_file_hash (w : world) (out n : string)
    (d : gmap string node) (f : file) :
  fs w !! out = Some (Directory d) ->
  lookup_node d n = Some (Reg f) ->
  readable f = true ->
  calculate_file_hash sha256 (Join out n) w = (Return (sha256 (content f)), w).
Proof.
  intros Hdir Hn Hr. unfold calculate_file_hash, read_file, bind.
  cbn [pdir pname]. rewrite (run_entries_of _ _ _ Hdir), Hn, Hr. done.
Qed.

Lemma run_remove (w : world) (out n : string) (d : gmap string node) (f : file) :
  fs w !! out = Some (Directory d) ->
  lookup_node d n = Some (Reg f) ->
  os_remove (Join out n) w
  = (Return tt, World (<[out := Directory (delete n d)]> (fs w)) (stdout w)).
Proof.
  intros Hdir Hn. unfold os_remove, bind. cbn [pdir pname].
  rewrite (run_entries_of _ _ _ Hdir), Hn. done.
Qed.

Lemma run_rename (w : world) (out src dst : string) (d : gmap string node)
    (f : file) :
  fs w !! out = Some (Directory d) ->
  lookup_node d src = Some (Reg f) ->
  exists_in d dst = false ->
  os_rename (Join out src) (Join out dst) w
  = (Return tt,
     World (<[out := Directory (<[dst := Reg f]> (delete src d))]> (fs w))
           (stdout w)).
Proof.
  intros Hdir Hsrc Hdst. unfold os_rename, bind. cbn [pdir pname].
  rewrite (run_entries_of _ _ _ Hdir), Hsrc.
  unfold exists_in in Hdst. apply bool_decide_eq_false in Hdst.
  destruct (lookup_node d dst) as [x|]; [|done].
  exfalso. apply Hdst. by eexists.
Qed.

(** The loop of lines 73-80 in a directory whose files can all be
    read: it stops at the first name of the listing that is a
    duplicate, prints it, removes the temporary file and returns
    [False]; without a duplicate it falls through. *)
Lemma run_scan_existing (w : world) (url out temp : string)
    (d : gmap string node) (ft : file) (h : digest) (listing : list string) :
  fs w !! out = Some (Directory d) ->
  healthy d ->
  lookup_node d temp = Some (Reg ft) ->
  scan_existing sha256 url out (Join out temp) h listing w
  = match find (is_duplicate sha256 d h) listing with
    | Some n =>
        (Return (Some false),
         World (<[out := Directory (delete temp d)]> (fs w))
               (stdout w ++ [DuplicateOf url n]))
    | None => (Return None, w)
    end.
Proof.
  intros Hdir Hh Htemp. induction listing as [|n rest IH]; [done|].
  simpl. unfold is_duplicate at 1. fold (is_temp n).
  destruct (is_temp n); [exact IH|]. simpl.
  unfold bind at 1. rewrite (run_isfile _ _ _ Hdir).
  destruct (lookup_node d n) as [[f|]|] eqn:Hn; [|exact IH..].
  unfold bind at 1.
  destruct (Hh n f (lookup_node_Reg _ _ _ Hn)) as [Hr _].
  rewrite (run_calculate_file_hash _ _ _ _ _ Hdir Hn Hr).
  destruct (bool_decide (sha256 (content f) = h)); [|exact IH].
  unfold bind, print. simpl.
  erewrite run_remove; [done | exact Hdir | exact Htemp].
Qed.

(** Lines 63-88 for a response with payload [data], in a directory
    that is there (or can be made), whose files can be read and
    written and where the temporary name is not a sub-directory. *)
Lemma run_save_image (w : world) (url out filename : string) (r : response)
    (d : gmap string node) :
  out <> "" ->
  entries_after_makedirs (fs w) out = Some d ->
  healthy d ->
  d !! ("temp_" +:+ filename) <> Some SubDir ->
  let temp := "temp_" +:+ filename in
  let stored := Reg (File (body r) true true) in
  let d1 := <[temp := stored]> d in
  match find (is_duplicate sha256 d1 (sha256 (body r))) (map_to_list d1).*1 with
  | Some n =>
      save_image sha256 url out filename r w
      = (Return false,
         World (<[out := Directory (delete temp d)]> (fs w))
               (stdout w ++ [DuplicateOf url n]))
  | None =>
      exists final,
        unique_name_for d1 filename final /\
        save_image sha256 url out filename r w
        = (Return true,
           World (<[out := Directory (<[final := stored]> (delete temp d))]> (fs w))
                 (stdout w ++ [Fetched filename; SavedTo (Join out final)]))
  end.
Proof.
  intros Hout Hd Hh Hsub temp stored d1.
  destruct (run_makedirs w out d Hout Hd) as (w0 & Hmk & Hdir0 & Hlog0 & Hfs0).
  set (w1 := World (<[out := Directory d1]> (fs w0)) (stdout w0)).
  assert (Hdir1 : fs w1 !! out = Some (Directory d1)) by apply lookup_insert_eq.
  assert (Hh1 : healthy d1).
  { intros n f. unfold d1. rewrite lookup_insert.
    case_decide; [|apply Hh]. by intros [= <-]. }
  assert (Htemp : lookup_node d1 temp = Some stored).
  { unfold temp. rewrite lookup_node_temp. apply lookup_insert_eq. }
  assert (Hrun :
    save_image sha256 url out filename r w
    = bind (scan_existing sha256 url out (Join out temp) (sha256 (body r))
              (map_to_list d1).*1)
        (fun returned =>
           match returned with
           | Some b => ret b
           | None =>
               bind (get_unique_filename (Join out filename)) (fun filepath =>
               bind (os_rename (Join out temp) filepath) (fun _ =>
               bind (print (Fetched filename)) (fun _ =>
               bind (print (SavedTo filepath)) (fun _ => ret true))))
           end) w1).
  { unfold save_image. unfold bind at 1. rewrite Hmk.
    unfold bind at 1. fold temp.
    rewrite (run_write_file w0 out temp (body r) d Hdir0 Hh (temp_not_dot _) Hsub).
    fold stored. fold d1. fold w1.
    unfold bind at 1.
    rewrite (run_calculate_file_hash w1 out temp d1 _ Hdir1 Htemp eq_refl).
    unfold bind at 1. rewrite (run_listdir _ _ _ Hdir1). done. }
  pose proof (run_scan_existing w1 url out temp d1 _ (sha256 (body r))
                (map_to_list d1).*1 Hdir1 Hh1 Htemp) as Hscan.
  assert (Hdel : delete temp d1 = delete temp d).
  { unfold d1. apply delete_insert_eq. }
  destruct (find _ _) as [n|] eqn:Hfind.
  - rewrite Hrun. unfold bind at 1. rewrite Hscan.
    simpl. unfold ret. f_equal. unfold w1. simpl.
    rewrite insert_insert_eq, Hfs0, Hdel, Hlog0. done.
  - destruct (run_get_unique_filename w1 out filename d1 Hdir1)
      as (final & Hfinal & Huniq).
    exists final. split; [done|].
    rewrite Hrun. unfold bind at 1. rewrite Hscan.
    cbv beta iota. unfold bind at 1. rewrite Hfinal.
    unfold bind at 1.
    rewrite (run_rename w1 out temp final d1 _ Hdir1 Htemp
               (unique_name_free _ _ _ Huniq)).
    unfold bind, print, ret. simpl.
    rewrite insert_insert_eq, Hfs0, Hdel, Hlog0, <- app_assoc. done.
Qed.

(** An accepted request reaches lines 56-88 with the derived name. *)
Lemma fetch_body_accepted (e : env) (url out : string)
    (parsed_url : parse_result) (r : response) (w : world) :
  accepted urlparse py_int e url parsed_url r ->
  body_of e url out w
  = save_image sha256 url out (derive_filename e parsed_url r) r w.
Proof.
  intros (Hparse & Hscheme & Hget & Hstatus & Himage & Hlen).
  unfold fetch_body. rewrite Hparse.
  assert (Hs : bool_decide (scheme parsed_url = "http")
               || bool_decide (scheme parsed_url = "https") = true).
  { destruct Hscheme as [Hs|Hs]; rewrite Hs; done. }
  rewrite Hs, Hget. simpl negb. cbv iota.
  unfold bind at 1. unfold raise_for_status.
  assert (Hst : ((400 <=? status_code r) && (status_code r <? 600))%Z = false).
  { apply not_true_is_false. intros Ht. apply Hstatus.
    apply andb_true_iff in Ht as [?%Z.leb_le ?%Z.ltb_lt]. lia. }
  rewrite Hst, Himage. simpl.
  unfold bind at 1. unfold content_length_too_large.
  destruct Hlen as [-> | [-> | (s & n & -> & Hint & Hle)]]; [done..|].
  destruct (bool_decide (s = "")); [done|].
  rewrite Hint. simpl.
  by rewrite (proj2 (Z.ltb_ge _ _) Hle).
Qed.

Lemma fetch_returns (e : env) (url out : string) (w w' : world) (b : bool) :
  body_of e url out w = (Return b, w') ->
  fetch e url out w = (Return b, w').
Proof. intros Hb. unfold fetch_and_save_image, try_except. by rewrite Hb. Qed.

Lemma no_duplicate_when_fresh (d : gmap string node) (h : digest)
    (temp : string) (x : node) (listing : list string) :
  fresh_for sha256 d h ->
  is_temp temp = true ->
  find (is_duplicate sha256 (<[temp := x]> d) h) listing = None.
Proof.
  intros Hfresh Htemp. destruct (find _ _) as [n|] eqn:Hfind; [|done].
  exfalso. apply find_some in Hfind as [_ Hdup].
  unfold is_duplicate in Hdup. apply andb_true_iff in Hdup as [Hnt Hdup].
  apply negb_true_iff in Hnt.
  destruct (lookup_node _ n) as [[f|]|] eqn:Hn; [|done..].
  apply lookup_node_Reg in Hn. rewrite lookup_insert_ne in Hn by congruence.
  apply bool_decide_eq_true in Hdup. by apply (Hfresh n f).
Qed.

Lemma duplicate_found (d : gmap string node) (h : digest) (n : string)
    (x : node) :
  d !! n = Some x ->
  is_duplicate sha256 d h n = true ->
  exists dup, find (is_duplicate sha256 d h) (map_to_list d).*1 = Some dup /\
              is_duplicate sha256 d h dup = true.
Proof.
  intros Hn Hdup. destruct (find _ _) as [dup|] eqn:Hfind.
  - exists dup. split; [done|]. by apply find_some in Hfind as [_ ?].
  - exfalso. eapply find_none in Hfind; [by rewrite Hdup in Hfind|].
    apply list_elem_of_In, list_elem_of_fmap. exists (n, x).
    split; [done|]. by apply elem_of_map_to_list.
Qed.

(** A name that is free in a directory is not one of its dot entries,
    and names no entry. *)
Lemma free_name (d : gmap string node) (n : string) :
  exists_in d n = false -> is_dot_entry n = false /\ d !! n = None.
Proof.
  unfold exists_in, lookup_node. intros Hfree%bool_decide_eq_false.
  destruct (is_dot_entry n); [exfalso; apply Hfree; by eexists|].
  split; [done|]. by apply eq_None_not_Some.
Qed.

Lemma healthy_insert (d : gmap string node) (n : string) (data : list byte) :
  healthy d -> healthy (<[n := Reg (File data true true)]> d).
Proof.
  intros Hh m f. rewrite lookup_insert. case_decide; [|apply Hh].
  by intros [= <-].
Qed.

Lemma healthy_delete (d : gmap string node) (n : string) :
  healthy d -> healthy (delete n d).
Proof.
  intros Hh m f. rewrite lookup_delete. case_decide; [done | apply Hh].
Qed.

(** *** The same content twice *)

(** Where the duplicate check works.  Two requests, of any URLs, are
    accepted and carry the same bytes; the directory is there or can
    be made, its files can be read and written, the two temporary
    names are not sub-directories, and no permanent file in it has the
    digest of these bytes.  Then the first invocation stores the bytes
    under the name [get_unique_filename] picks.  If that name does
    not begin with [temp_], the second invocation returns [False], its
    one printed line reports a duplicate of the stored file, its
    temporary file is gone, and the stored file is the only permanent
    file with these bytes.  (The scan of lines 73-80 compares the
    digest of the temporary file with that of every regular file of
    the listing whose name does not begin with [temp_]:
    [run_scan_existing].  What happens when the stored name does begin
    with [temp_] is [same_content_stored_twice].) *)
Theorem same_content_twice (e1 e2 : env) (url1 url2 out : string)
    (parsed1 parsed2 : parse_result) (r1 r2 : response) (w : world)
    (d : gmap string node) :
  accepted urlparse py_int e1 url1 parsed1 r1 ->
  accepted urlparse py_int e2 url2 parsed2 r2 ->
  body r1 = body r2 ->
  out <> "" ->
  entries_after_makedirs (fs w) out = Some d ->
  healthy d ->
  d !! ("temp_" +:+ derive_filename e1 parsed1 r1) <> Some SubDir ->
  d !! ("temp_" +:+ derive_filename e2 parsed2 r2) <> Some SubDir ->
  fresh_for sha256 d (sha256 (body r1)) ->
  let name1 := derive_filename e1 parsed1 r1 in
  let temp1 := "temp_" +:+ name1 in
  let temp2 := "temp_" +:+ derive_filename e2 parsed2 r2 in
  let stored := Reg (File (body r1) true true) in
  exists final w1,
    fetch e1 url1 out w = (Return true, w1) /\
    unique_name_for (<[temp1 := stored]> d) name1 final /\
    fs w1 !! out = Some (Directory (<[final := stored]> (delete temp1 d))) /\
    (is_temp final = false ->
     let d2 := delete temp2 (<[final := stored]> (delete temp1 d)) in
     fetch e2 url2 out w1
     = (Return false,
        World (<[out := Directory d2]> (fs w1))
              (stdout w1 ++ [DuplicateOf url2 final])) /\
     forall n, permanent_with d2 (body r1) n <-> n = final).
Proof.
  intros Hacc1 Hacc2 Hbody Hout Hd Hh Hsub1 Hsub2 Hfresh name1 temp1 temp2 stored.
  (* the first invocation *)
  pose proof (run_save_image w url1 out name1 r1 d Hout Hd Hh Hsub1) as Hrun1.
  cbv zeta in Hrun1. fold temp1 stored in Hrun1.
  rewrite (no_duplicate_when_fresh d _ temp1 stored _ Hfresh (is_temp_temp _))
    in Hrun1.
  destruct Hrun1 as (final & Huniq & Hrun1).
  set (d' := <[final := stored]> (delete temp1 d)).
  eexists final, _. split.
  { apply fetch_returns. rewrite (fetch_body_accepted _ _ _ _ _ _ Hacc1).
    exact Hrun1. }
  split; [exact Huniq|]. simpl. split; [apply lookup_insert_eq|].
  intros Hfinal.
  set (w1 := World (<[out := Directory d']> (fs w))
                   (stdout w ++ [Fetched name1; SavedTo (Join out final)])).
  (* the name of the stored file *)
  destruct (free_name _ _ (unique_name_free _ _ _ Huniq)) as [Hdot Hnone].
  assert (Hne2 : final <> temp2).
  { intros ->. unfold temp2 in Hfinal. by rewrite is_temp_temp in Hfinal. }
  (* the second invocation *)
  assert (Hd' : entries_after_makedirs (fs w1) out = Some d').
  { unfold entries_after_makedirs, w1. simpl. by rewrite lookup_insert_eq. }
  assert (Hh' : healthy d') by by apply healthy_insert, healthy_delete.
  assert (Hsub' : d' !! temp2 <> Some SubDir).
  { unfold d'. rewrite lookup_insert_ne by done. rewrite lookup_delete.
    case_decide; [done | exact Hsub2]. }
  pose proof (run_save_image w1 url2 out _ r2 d' Hout Hd' Hh' Hsub') as Hrun2.
  cbv zeta in Hrun2. fold temp2 in Hrun2. rewrite <- Hbody in Hrun2.
  fold stored in Hrun2.
  assert (Hdupfinal : forall n,
    is_duplicate sha256 (<[temp2 := stored]> d') (sha256 (body r1)) n = true ->
    n = final).
  { intros n Hdup. unfold is_duplicate in Hdup.
    apply andb_true_iff in Hdup as [Hnt%negb_true_iff Hdup].
    destruct (lookup_node _ n) as [[f|]|] eqn:Hn; [|done..].
    apply lookup_node_Reg in Hn. apply bool_decide_eq_true in Hdup.
    destruct (decide (n = final)) as [|Hnf]; [done|]. exfalso.
    rewrite lookup_insert_ne in Hn
      by (intros <-; unfold temp2 in Hnt; by rewrite is_temp_temp in Hnt).
    unfold d' in Hn. rewrite lookup_insert_ne in Hn by done.
    rewrite lookup_delete in Hn. case_decide; [done|].
    by apply (Hfresh n f). }
  destruct (duplicate_found (<[temp2 := stored]> d') (sha256 (body r1))
              final stored) as (dup & Hfind & Hdup).
  { rewrite lookup_insert_ne by done. apply lookup_insert_eq. }
  { unfold is_duplicate. rewrite Hfinal. simpl. unfold lookup_node.
    rewrite Hdot, lookup_insert_ne by done. unfold d'.
    rewrite lookup_insert_eq. simpl. by apply bool_decide_eq_true. }
  rewrite Hfind in Hrun2. apply Hdupfinal in Hdup as ->.
  split.
  { apply fetch_returns. rewrite (fetch_body_accepted _ _ _ _ _ _ Hacc2).
    exact Hrun2. }
  (* the permanent files with these bytes *)
  intros n. unfold permanent_with. split.
  - intros (Hnt & f & Hn & Hcontent).
    destruct (decide (n = final)) as [|Hnf]; [done|]. exfalso.
    rewrite lookup_delete in Hn. case_decide; [done|].
    fold d' in Hn. unfold d' in Hn. rewrite lookup_insert_ne in Hn by done.
    rewrite lookup_delete in Hn. case_decide; [done|].
    apply (Hfresh n f Hn Hnt). by rewrite Hcontent.
  - intros ->. split; [done|]. exists (File (body r1) true true).
    split; [|done]. rewrite lookup_delete_ne by done. apply lookup_insert_eq.
Qed.

(** *** Two images under one derived name *)






End FetcherProofs.

(** ** The fetcher and its standard output *)

Section FetcherOnStream.

Context {digest : Type} `{EqDecision digest}.
Variable urlparse : string -> option parse_result.
Variable py_int : string -> option Z.
Variable sha256 : list byte -> digest.
Variable takes : stream.

Abbreviation fetch_to := (Encoded.fetch_and_save_image urlparse py_int sha256 takes).
Abbreviation body_to := (Encoded.fetch_body urlparse py_int sha256 takes).

Lemma terminates_print_to l : terminates (print_to takes l).
Proof. unfold print_to. term_auto. Qed.
#[local] Hint Resolve terminates_print_to terminates_calculate_file_hash
  terminates_raise_for_status terminates_content_length_too_large : term.

Lemma terminates_scan_existing_to url out temp h listing :
  terminates (Encoded.scan_existing sha256 takes url out temp h listing).
Proof. induction listing as [|n rest IH]; simpl; term_auto. Qed.
#[local] Hint Resolve terminates_scan_existing_to : term.

Lemma terminates_save_image_to url out filename r :
  terminates (Encoded.save_image sha256 takes url out filename r).
Proof. unfold Encoded.save_image. term_auto. Qed.
#[local] Hint Resolve terminates_save_image_to : term.

Lemma terminates_fetch_body_to e url out : terminates (body_to e url out).
Proof. unfold Encoded.fetch_body. term_auto. Qed.

(** The [except] clause that catches [ex]: [False] after its line
    when the stream takes the line; otherwise the [UnicodeEncodeError]
    of its [print], raised inside no [try], with nothing printed. *)
Lemma run_fetch_handler_to url ex w :
  Encoded.fetch_handler takes url ex w
  = let diagnostic := if is_RequestException ex then ConnectionError url ex
                      else ErrorOccurred url ex in
    if takes diagnostic
    then (Return false, World (fs w) (stdout w ++ [diagnostic]))
    else (Raise UnicodeEncodeError, w).
Proof.
  unfold Encoded.fetch_handler, print_to. cbv zeta.
  destruct (is_RequestException ex);
    unfold bind; by destruct (takes _).
Qed.

(** How an invocation ends on any standard output.  It always ends.
    What the body returns is returned; an exception of the body is
    answered by its [except] clause, and leaves the function as
    [UnicodeEncodeError] exactly when the stream refuses the line of
    that clause. *)
Lemma fetch_to_outcome (e : env) (url out : string) (w : world) :
  match body_to e url out w with
  | (Return b, w') => fetch_to e url out w = (Return b, w')
  | (Raise ex, w') =>
      let diagnostic := if is_RequestException ex then ConnectionError url ex
                        else ErrorOccurred url ex in
      fetch_to e url out w
      = if takes diagnostic
        then (Return false, World (fs w') (stdout w' ++ [diagnostic]))
        else (Raise UnicodeEncodeError, w')
  | (Diverge, _) => False
  end.
Proof.
  pose proof (terminates_fetch_body_to e url out w) as Hterm.
  unfold Encoded.fetch_and_save_image, try_except.
  destruct (body_to e url out w) as [[b|ex|] w'] eqn:Hbody; simpl in *.
  - done.
  - apply run_fetch_handler_to.
  - done.
Qed.

(** C9 fails on the code.  The [print] statements of the two [except]
    clauses (lines 91 and 94) stand inside no [try].  On a standard
    output that cannot encode the cross, a URL with a scheme other
    than http and https is enough: the [print] of line 38 raises
    [UnicodeEncodeError] inside the [try], the clause of line 93
    catches it, its own [print] raises [UnicodeEncodeError] again, and
    this one leaves [fetch_and_save_image]: no boolean is returned,
    nothing is printed, the state is as it was. *)
Theorem print_failure_escapes (e : env) (url out : string) (w : world)
    (parsed_url : parse_result) :
  urlparse url = Some parsed_url ->
  scheme parsed_url <> "http" ->
  scheme parsed_url <> "https" ->
  takes (InvalidScheme url) = false ->
  takes (ErrorOccurred url UnicodeEncodeError) = false ->
  fetch_to e url out w = (Raise UnicodeEncodeError, w).
Proof.
  intros Hparse Hhttp Hhttps Hline Hdiag.
  pose proof (fetch_to_outcome e url out w) as Hrun.
  unfold Encoded.fetch_body in Hrun. rewrite Hparse in Hrun.
  rewrite !bool_decide_eq_false_2 in Hrun by done.
  unfold print_to, bind in Hrun. rewrite Hline in Hrun.
  cbv zeta in Hrun. simpl in Hrun. by rewrite Hdiag in Hrun.
Qed.

End FetcherOnStream.

(** The two embeddings of the fetcher are the same function when the
    standard output takes every line: [print_to] is [print] there, and
    the statements are the same one by one. *)
Section WorkingStream.

Context {digest : Type} `{EqDecision digest}.
Variable urlparse : string -> option parse_result.
Variable py_int : string -> option Z.
Variable sha256 : list byte -> digest.

Lemma fetch_working_stream (e : env) (url out : string) (w : world) :
  Encoded.fetch_and_save_image urlparse py_int sha256 (fun _ => true) e url out w
  = fetch_and_save_image urlparse py_int sha256 e url out w.
Proof. reflexivity. Qed.

End WorkingStream.

(** ** The loader and the analyzer *)

Section AnalysisProofs.

Variable float : Type.
Variable is_nan : float -> bool.
Variable mean : list float -> float.
Variable load_iris : exn + bunch float.

Abbreviation load := (load_and_explore_data float is_nan load_iris).
Abbreviation analyze := (analyze_data float mean).
Abbreviation aggregate := (groupby_mean float mean).

Lemma dropna_clean (df : table float) :
  existsb (row_isnull float is_nan) (rows float df) = false ->
  dropna float is_nan df = df.
Proof.
  destruct df as [cats rs]. unfold dropna. simpl. intros Hclean. f_equal.
  induction rs as [|r rs IH]; [done|]. simpl in Hclean.
  apply orb_false_iff in Hclean as [Hr Hrs].
  rewrite filter_cons. rewrite decide_True by done. f_equal. by apply IH.
Qed.

Lemma run_load (w : world) :
  exists log, load w = (Return (loaded float is_nan load_iris), World (fs w) log).
Proof.
  unfold load_and_explore_data, try_except, load_body, loaded, lift, from_codes.
  destruct load_iris as [e|iris]; [by eexists|].
  unfold bind at 2. unfold bind at 2. simpl.
  destruct (bool_decide (NoDup (target_names float iris))); simpl;
    [|by eexists].
  destruct (forallb _ _); simpl; [|by eexists].
  unfold bind, print, ret. simpl.
  destruct (existsb _ _) eqn:Hnull; simpl.
  - by eexists.
  - rewrite dropna_clean by done. by eexists.
Qed.

(** *** The group aggregate *)

Lemma keys_all_aux (df : table float) (g : nat -> nat) (cats : list string) :
  (omap (fun '(code, c) =>
           let rows_of := group_rows float df code in
           if false && bool_decide (rows_of = []) then None
           else Some (c, group_mean float mean rows_of))
        (imap (fun i c => (g i, c)) cats)).*1 = cats.
Proof.
  revert g. induction cats as [|c cats IH]; intros g; [done|].
  simpl. f_equal. apply (IH (g ∘ S)).
Qed.

(** Without [observed], the keys are the categories of the column. *)
Lemma aggregate_keys (df : table float) :
  (aggregate false df).*1 = categories float df.
Proof. unfold groupby_mean. apply (keys_all_aux df id). Qed.

Lemma keys_observed_aux (df : table float) (g : nat -> nat) (cats : list string) :
  (omap (fun '(code, c) =>
           let rows_of := group_rows float df code in
           if true && bool_decide (rows_of = []) then None
           else Some (c, group_mean float mean rows_of))
        (imap (fun i c => (g i, c)) cats)).*1
  = omap (fun '(code, c) =>
            if bool_decide (group_rows float df code = []) then None else Some c)
         (imap (fun i c => (g i, c)) cats).
Proof.
  revert g. induction cats as [|c cats IH]; intros g; [done|].
  simpl. destruct (bool_decide (group_rows float df (g 0) = [])); simpl.
  - apply (IH (g ∘ S)).
  - f_equal. apply (IH (g ∘ S)).
Qed.

(** With [observed=True] (the default of later pandas), the keys
    would be the categories that occur. *)
Lemma aggregate_keys_observed (df : table float) :
  (aggregate true df).*1 = present float df.
Proof. unfold groupby_mean, present. apply (keys_observed_aux df id). Qed.

Lemma present_aux (df : table float) (g : nat -> nat) (cats : list string)
    (c : string) :
  c ∈ omap (fun '(code, c) =>
              if bool_decide (group_rows float df code = []) then None else Some c)
           (imap (fun i c => (g i, c)) cats)
  <-> exists i, cats !! i = Some c /\ group_rows float df (g i) <> [].
Proof.
  revert g. induction cats as [|c0 cats IH]; intros g.
  - simpl. split; [by intros ?%elem_of_nil | by intros (i & ? & _)].
  - simpl. case_bool_decide as Hg.
    + rewrite (IH (g ∘ S)). split.
      * intros (i & Hi & Hne). by exists (S i).
      * intros ([|i] & Hi & Hne); simpl in *; [by simplify_eq | by exists i].
    + rewrite elem_of_cons, (IH (g ∘ S)). split.
      * intros [-> | (i & Hi & Hne)]; [by exists 0 | by exists (S i)].
      * intros ([|i] & Hi & Hne); simpl in *;
          [left; by simplify_eq | right; by exists i].
Qed.

Lemma elem_of_present (df : table float) (c : string) :
  c ∈ present float df
  <-> exists code, categories float df !! code = Some c /\
                   group_rows float df code <> [].
Proof. unfold present. apply (present_aux df id). Qed.

(** C4, as amended.  For every valid observation table the keys of
    the group aggregate are the categories of the label column, in
    their order, whether rows carry them or not.  A category is among
    the categories present exactly when its group has a row, so the
    key set is the set of categories present exactly when every
    category of the column occurs in some row.  The aggregate is
    empty exactly when the column has no category, and then the table
    has no rows. *)
Theorem aggregate_keys_are_categories (df : table float) :
  valid_table float is_nan df ->
  (aggregate groupby_observed_default df).*1 = categories float df /\
  (forall code c, categories float df !! code = Some c ->
     (c ∈ present float df <-> group_rows float df code <> [])) /\
  ((forall c, c ∈ (aggregate groupby_observed_default df).*1
              <-> c ∈ present float df)
   <-> forall code, code < length (categories float df) ->
                    group_rows float df code <> []) /\
  (aggregate groupby_observed_default df = [] <-> categories float df = []) /\
  (categories float df = [] -> rows float df = []).
Proof.
  intros [Hnodup Hrows]. unfold groupby_observed_default.
  assert (Hpresent : forall code c, categories float df !! code = Some c ->
     (c ∈ present float df <-> group_rows float df code <> [])).
  { intros code c Hc. rewrite elem_of_present. split.
    - intros (code' & Hc' & Hne).
      by rewrite (NoDup_lookup _ _ _ _ Hnodup Hc Hc').
    - intros Hne. by exists code. }
  split_and!.
  - apply aggregate_keys.
  - exact Hpresent.
  - rewrite aggregate_keys. split.
    + intros Hsame code Hcode.
      destruct (lookup_lt_is_Some_2 _ _ Hcode) as [c Hc].
      apply (Hpresent code c Hc), Hsame. by eapply list_elem_of_lookup_2.
    + intros Hall c. split.
      * intros (code & Hc)%list_elem_of_lookup.
        apply (Hpresent code c Hc), Hall. by eapply lookup_lt_Some.
      * intros (code & Hc & _)%elem_of_present. by eapply list_elem_of_lookup_2.
  - split.
    + intros Hnil. by rewrite <- aggregate_keys, Hnil.
    + intros Hnil. apply (fmap_nil_inv fst). by rewrite aggregate_keys.
  - intros Hnil. destruct (rows float df) as [|r rs]; [done|].
    apply Forall_cons in Hrows as [(_ & code & _ & Hlt) _].
    rewrite Hnil in Hlt. simpl in Hlt. lia.
Qed.

(** *** The observations of the analyzer *)

Lemma run_at_position {A} (l : list A) (i : nat) (w : world) :
  at_position l i w
  = (match l !! i with Some a => Return a | None => Raise IndexError end, w).
Proof. unfold at_position. by destruct (l !! i). Qed.

(** C3, as amended.  The analyzer has no check of its own.  When the
    label column has fewer than three categories, the positional
    access (at index 0 when there is none, else at index 2) raises the
    [IndexError] of the list access and the analyzer lets it through;
    with three or more categories it returns the aggregate, however
    few of the categories occur in the rows. *)
Theorem analyze_positional_indexing (df : table float) (w : world) :
  (analyze df w).1
  = if (length (categories float df) <? 3)%nat then Raise IndexError
    else Return (aggregate groupby_observed_default df).
Proof.
  unfold analyze_data, groupby_observed_default.
  pose proof (aggregate_keys df) as Hkeys.
  destruct (aggregate false df) as [|g0 [|g1 [|g2 gs]]] eqn:Hagg;
    rewrite <- Hkeys; done.
Qed.

(** *** The visualizer *)

End AnalysisProofs.

Lemma charts_union (X : gset string) :
  {[scatter_png]} ∪ ({[hist_png]} ∪ ({[bar_png]} ∪ ({[trend_png]} ∪ X)))
  = X ∪ list_to_set chart_names.
Proof.
  unfold chart_names. simpl. apply set_eq. intros x.
  rewrite !elem_of_union, !elem_of_singleton, elem_of_empty. tauto.
Qed.

Section VisualizerProofs.

Variable float : Type.
Variable plot_trend plot_bar plot_hist plot_scatter
  : table float -> exn + list byte.

Abbreviation visualize :=
  (create_visualizations float plot_trend plot_bar plot_hist plot_scatter).

Lemma bind_Return {A B} (m : M A) (k : A -> M B) (w w' : world) (b : B) :
  bind m k w = (Return b, w') ->
  exists a w1, m w = (Return a, w1) /\ k a w1 = (Return b, w').
Proof.
  unfold bind. destruct (m w) as [[a|e|] w1]; [|done..].
  intros Hk. by exists a, w1.
Qed.

Lemma makedirs_Return (p : string) (w w0 : world) :
  os_makedirs_exist_ok p w = (Return tt, w0) ->
  exists d0, entries_after_makedirs (fs w) p = Some d0 /\
             fs w0 !! p = Some (Directory d0) /\
             stdout w0 = stdout w /\
             forall x, <[p := x]> (fs w0) = <[p := x]> (fs w).
Proof.
  unfold os_makedirs_exist_ok, entries_after_makedirs.
  destruct (bool_decide (p = "")); [done|].
  unfold bind, get_fs, set_fs. destruct (fs w !! p) as [[d|]|] eqn:Hp.
  - intros [= <-]. by exists d.
  - done.
  - intros [= <-]. exists ∅. simpl. rewrite lookup_insert_eq.
    split_and!; [done..|]. intros x. by rewrite insert_insert_eq.
Qed.

Lemma lift_Return {A} (r : exn + A) (w w1 : world) (a : A) :
  lift r w = (Return a, w1) -> r = inr a /\ w1 = w.
Proof. destruct r; [done|]. by intros [= -> ->]. Qed.

Lemma write_file_Return (out n : string) (data : list byte) (w w' : world) :
  write_file (Join out n) data w = (Return tt, w') ->
  exists d, fs w !! out = Some (Directory d) /\
            w' = World (<[out := Directory (rewritten d n data)]> (fs w))
                       (stdout w).
Proof.
  unfold write_file, entries_of, bind, get_fs. cbn [pdir pname].
  destruct (fs w !! out) as [[d|]|] eqn:Hout; [|done..].
  unfold rewritten, lookup_node, raise, ret, set_entries, bind, get_fs, set_fs.
  destruct (is_dot_entry n); [done|].
  destruct (d !! n) as [[f|]|] eqn:Hn; [|done|].
  - destruct (writable f); [|done]. intros [= <-]. exists d. by rewrite Hn.
  - intros [= <-]. exists d. by rewrite Hn.
Qed.

(** Writing again what a file already holds changes nothing. *)
Lemma write_file_again (out n : string) (data : list byte) (w : world)
    (d : gmap string node) (r : bool) :
  fs w !! out = Some (Directory d) ->
  is_dot_entry n = false ->
  d !! n = Some (Reg (File data r true)) ->
  write_file (Join out n) data w = (Return tt, w).
Proof.
  intros Hout Hdot Hn. unfold write_file, bind. cbn [pdir pname].
  rewrite (run_entries_of _ _ _ Hout). unfold lookup_node. rewrite Hdot, Hn.
  simpl. unfold set_entries, bind, get_fs, set_fs.
  rewrite (insert_id d), (insert_id (fs w)) by done. by destruct w.
Qed.

Lemma rewritten_lookup (d : gmap string node) (n m : string) (data : list byte) :
  rewritten d n data !! m
  = if decide (n = m)
    then Some (Reg (File data
                 (match d !! n with Some (Reg f) => readable f | _ => true end)
                 true))
    else d !! m.
Proof. unfold rewritten. apply lookup_insert. Qed.


(** A run of the visualizer that ends normally: the directory was
    there or has been made, the four figures were rendered, and each
    was written over what the directory had under its name. *)
Lemma run_create_visualizations (df : table float) (w w' : world) :
  visualize df w = (Return tt, w') ->
  exists d0 p1 p2 p3 p4,
    entries_after_makedirs (fs w) charts_dir = Some d0 /\
    plot_trend df = inr p1 /\ plot_bar df = inr p2 /\
    plot_hist df = inr p3 /\ plot_scatter df = inr p4 /\
    w' = World (<[charts_dir :=
                   Directory (rewritten (rewritten (rewritten
                                (rewritten d0 trend_png p1)
                                bar_png p2) hist_png p3) scatter_png p4)]> (fs w))
               (stdout w).
Proof.
  unfold create_visualizations, savefig. intros Hrun.
  apply bind_Return in Hrun as ([] & w0 & Hmk & Hrun).
  apply makedirs_Return in Hmk as (d0 & Hd0 & Hdir0 & Hlog0 & Hfs0).
  apply bind_Return in Hrun as (p1 & w0' & [Hp1 ->]%lift_Return & Hrun).
  apply bind_Return in Hrun as ([] & w1 & Hw1 & Hrun).
  apply write_file_Return in Hw1 as (d0' & Hd0' & ->).
  rewrite Hdir0 in Hd0'. injection Hd0' as <-.
  apply bind_Return in Hrun as (p2 & w1' & [Hp2 ->]%lift_Return & Hrun).
  apply bind_Return in Hrun as ([] & w2 & Hw2 & Hrun).
  apply write_file_Return in Hw2 as (d1 & Hd1 & ->). simpl in Hd1.
  rewrite lookup_insert_eq in Hd1. injection Hd1 as <-.
  apply bind_Return in Hrun as (p3 & w2' & [Hp3 ->]%lift_Return & Hrun).
  apply bind_Return in Hrun as ([] & w3 & Hw3 & Hrun).
  apply write_file_Return in Hw3 as (d2 & Hd2 & ->). simpl in Hd2.
  rewrite lookup_insert_eq in Hd2. injection Hd2 as <-.
  apply bind_Return in Hrun as (p4 & w3' & [Hp4 ->]%lift_Return & Hrun).
  apply write_file_Return in Hrun as (d3 & Hd3 & ->). simpl in Hd3.
  rewrite lookup_insert_eq in Hd3. injection Hd3 as <-.
  simpl. rewrite !insert_insert_eq, Hfs0, Hlog0.
  by exists d0, p1, p2, p3, p4.
Qed.

Lemma charts_written (d0 : gmap string node) (p1 p2 p3 p4 : list byte) :
  let d' := rewritten (rewritten (rewritten (rewritten d0 trend_png p1)
                                    bar_png p2) hist_png p3) scatter_png p4 in
  exists r1 r2 r3 r4,
    d' !! trend_png = Some (Reg (File p1 r1 true)) /\
    d' !! bar_png = Some (Reg (File p2 r2 true)) /\
    d' !! hist_png = Some (Reg (File p3 r3 true)) /\
    d' !! scatter_png = Some (Reg (File p4 r4 true)).
Proof.
  intros d'. unfold d'. eexists _, _, _, _. rewrite !rewritten_lookup. simpl.
  split_and!; reflexivity.
Qed.

(** C7, as amended.  After a run of the visualizer that ends
    normally, the output directory holds the four charts as regular
    files under the four fixed names, each with the bytes of its
    figure; every other entry of the directory is what it was before
    the run, so the directory holds exactly these four files when it
    was empty or not there before.  A second run in that state ends
    normally too and leaves the state as it is: the four files are
    written again with the same bytes. *)
Theorem visualizer_writes_four_charts (df : table float) (w w' : world) :
  visualize df w = (Return tt, w') ->
  exists d0 d' p1 p2 p3 p4,
    entries_after_makedirs (fs w) charts_dir = Some d0 /\
    plot_trend df = inr p1 /\ plot_bar df = inr p2 /\
    plot_hist df = inr p3 /\ plot_scatter df = inr p4 /\
    d' = rewritten (rewritten (rewritten (rewritten d0 trend_png p1)
                                 bar_png p2) hist_png p3) scatter_png p4 /\
    w' = World (<[charts_dir := Directory d']> (fs w)) (stdout w) /\
    (exists r1 r2 r3 r4,
       d' !! trend_png = Some (Reg (File p1 r1 true)) /\
       d' !! bar_png = Some (Reg (File p2 r2 true)) /\
       d' !! hist_png = Some (Reg (File p3 r3 true)) /\
       d' !! scatter_png = Some (Reg (File p4 r4 true))) /\
    (forall n, n ∉ chart_names -> d' !! n = d0 !! n) /\
    dom d' = dom d0 ∪ list_to_set chart_names /\
    (d0 = ∅ -> dom d' = list_to_set chart_names) /\
    visualize df w' = (Return tt, w').
Proof.
  intros Hrun.
  apply run_create_visualizations in Hrun
    as (d0 & p1 & p2 & p3 & p4 & Hd0 & Hp1 & Hp2 & Hp3 & Hp4 & ->).
  set (d' := rewritten (rewritten (rewritten (rewritten d0 trend_png p1)
                                     bar_png p2) hist_png p3) scatter_png p4).
  pose proof (charts_written d0 p1 p2 p3 p4) as Hfiles.
  cbv zeta in Hfiles. fold d' in Hfiles.
  exists d0, d', p1, p2, p3, p4. split_and!; try done.
  - intros n Hn. unfold d'. rewrite !rewritten_lookup.
    unfold chart_names in Hn. rewrite !not_elem_of_cons in Hn.
    destruct Hn as (? & ? & ? & ? & _).
    by rewrite !decide_False by done.
  - unfold d', rewritten. rewrite !dom_insert_L. apply charts_union.
  - intros ->. unfold d', rewritten. rewrite !dom_insert_L, dom_empty_L.
    rewrite charts_union. apply (left_id_L ∅ (∪)).
  - destruct Hfiles as (r1 & r2 & r3 & r4 & H1 & H2 & H3 & H4).
    set (w' := World (<[charts_dir := Directory d']> (fs w)) (stdout w)).
    assert (Hdir' : fs w' !! charts_dir = Some (Directory d'))
      by apply lookup_insert_eq.
    unfold create_visualizations, savefig.
    unfold bind at 1. unfold os_makedirs_exist_ok.
    rewrite bool_decide_eq_false_2 by done.
    unfold bind at 1. unfold get_fs. cbv beta iota. rewrite Hdir'.
    unfold ret at 1. cbv beta iota.
    unfold bind at 1. rewrite Hp1. simpl lift. unfold ret at 1. cbv beta iota.
    unfold bind at 1.
    rewrite (write_file_again charts_dir trend_png p1 w' d' r1 Hdir' eq_refl H1).
    unfold bind at 1. rewrite Hp2. simpl lift. unfold ret at 1. cbv beta iota.
    unfold bind at 1.
    rewrite (write_file_again charts_dir bar_png p2 w' d' r2 Hdir' eq_refl H2).
    unfold bind at 1. rewrite Hp3. simpl lift. unfold ret at 1. cbv beta iota.
    unfold bind at 1.
    rewrite (write_file_again charts_dir hist_png p3 w' d' r3 Hdir' eq_refl H3).
    unfold bind at 1. rewrite Hp4. simpl lift. unfold ret at 1. cbv beta iota.
    apply (write_file_again charts_dir scatter_png p4 w' d' r4 Hdir' eq_refl H4).
Qed.

End VisualizerProofs.

(** ** The directory the two scripts share *)

Section SharedDirectory.

Context {digest : Type} `{EqDecision digest}.
Variable urlparse : string -> option parse_result.
Variable py_int : string -> option Z.
Variable sha256 : list byte -> digest.
Variable float : Type.
Variable plot_trend plot_bar plot_hist plot_scatter
  : table float -> exn + list byte.

Abbreviation fetch' := (fetch_and_save_image urlparse py_int sha256).
Abbreviation visualize' :=
  (create_visualizations float plot_trend plot_bar plot_hist plot_scatter).



End SharedDirectory.

(** ** The scripts on concrete inputs *)

Lemma healthyb_sound (d : gmap string node) : healthyb d = true -> healthy d.
Proof.
  unfold healthyb, healthy. intros Hall n f Hn.
  rewrite forallb_forall in Hall.
  specialize (Hall (n, Reg f)). simpl in Hall.
  apply andb_true_iff, Hall, list_elem_of_In. by apply elem_of_map_to_list.
Qed.

Lemma fresh_for_empty {digest : Type} (sha256 : list byte -> digest) (h : digest) :
  fresh_for sha256 ∅ h.
Proof. intros n f Hn. by rewrite lookup_empty in Hn. Qed.

Lemma accepted_sample (data : list byte) (url : string) (parsed_url : parse_result) :
  Sample.urlparse url = Some parsed_url ->
  scheme parsed_url = "http" ->
  accepted Sample.urlparse Sample.py_int (Sample.serving data) url parsed_url
    (Sample.image data).
Proof.
  intros Hparse Hscheme. unfold accepted. split_and!; try done.
  - by left.
  - simpl. lia.
  - by left.
Qed.


(** C1 fails on the code.  The scan for a duplicate (lines 73-80)
    tells the temporary file of the invocation from the stored files
    by the name alone: line 74 skips every name that begins with
    [temp_].  A stored file with such a name is never compared, and
    the same bytes are stored again.

    First, a URL whose last segment is [temp_a.png], fetched twice
    into an empty directory with the same bytes: the second fetch
    returns [True] and stores the bytes again as [temp_a_1.png].

    Second, the names the fetcher makes itself: [temp.png] fetched
    three times, with one picture and then twice with another.  The
    second picture is stored as [temp_1.png], by the suffix of
    [get_unique_filename]; the third fetch does not see it, returns
    [True] and stores the same bytes again as [temp_2.png]. *)
Theorem same_content_stored_twice :
  accepted Sample.urlparse Sample.py_int (Sample.serving Sample.png_a)
    Sample.url_temp (ParseResult "http" "/temp_a.png")
    (Sample.image Sample.png_a) /\
  (let first := Sample.fetch (Sample.serving Sample.png_a) Sample.url_temp "out"
                  Sample.empty_world in
   let second := Sample.fetch (Sample.serving Sample.png_a) Sample.url_temp "out"
                   first.2 in
   first.1 = Return true /\
   second.1 = Return true /\
   fs second.2 !! "out"
   = Some (Directory {[ "temp_a.png" := Reg (File Sample.png_a true true);
                        "temp_a_1.png" := Reg (File Sample.png_a true true) ]})) /\
  (let first := Sample.fetch (Sample.serving Sample.png_a) Cases.url_temp_png
                  "out" Sample.empty_world in
   let second := Sample.fetch (Sample.serving Sample.png_b) Cases.url_temp_png
                   "out" first.2 in
   let third := Sample.fetch (Sample.serving Sample.png_b) Cases.url_temp_png
                  "out" second.2 in
   first.1 = Return true /\
   second.1 = Return true /\
   third.1 = Return true /\
   fs third.2 !! "out"
   = Some (Directory {[ "temp.png" := Reg (File Sample.png_a true true);
                        "temp_1.png" := Reg (File Sample.png_b true true);
                        "temp_2.png" := Reg (File Sample.png_b true true) ]})).
Proof.
  split; [by apply accepted_sample|]. split; vm_compute; repeat split.
Qed.

Lemma same_content_twice_witness :
  exists w1 w2,
    Sample.fetch (Sample.serving Sample.png_a) Sample.url_a "out"
      Sample.empty_world = (Return true, w1) /\
    Sample.fetch (Sample.serving Sample.png_a) Sample.url_b "out" w1
    = (Return false, w2) /\
    stdout w2 = (stdout w1 ++ [DuplicateOf Sample.url_b "a.png"])%list.
Proof.
  destruct (same_content_twice Sample.urlparse Sample.py_int Sample.sha256
              (Sample.serving Sample.png_a) (Sample.serving Sample.png_a)
              Sample.url_a Sample.url_b "out"
              (ParseResult "http" "/cats/a.png")
              (ParseResult "http" "/dogs/a.png")
              (Sample.image Sample.png_a) (Sample.image Sample.png_a)
              Sample.empty_world ∅)
    as (final & w1 & Hfirst & Huniq & _ & Hsecond).
  - by apply accepted_sample.
  - by apply accepted_sample.
  - reflexivity.
  - discriminate.
  - reflexivity.
  - apply healthyb_sound. reflexivity.
  - rewrite lookup_empty. discriminate.
  - rewrite lookup_empty. discriminate.
  - apply fresh_for_empty.
  - destruct Huniq as [[_ ->]|[Hex _]]; [|vm_compute in Hex; discriminate].
    destruct (Hsecond eq_refl) as [Hrun _].
    eexists w1, _. split; [exact Hfirst|]. split; [exact Hrun | reflexivity].
Defined.

(** C2 fails on the code: a directory with a file the process may not
    read.  The temporary file is written, hashing the unreadable file
    raises [PermissionError], the second [except] clause prints and
    returns [False], and [temp_a.png] stays in the directory. *)
Theorem temp_file_left_after_error :
  Sample.fetch (Sample.serving Sample.png_a) Sample.url_a "out"
    Sample.locked_world
  = (Return false,
     World {[ "out" := Directory
                {[ "old.png" := Reg (File Sample.png_b false false);
                   "temp_a.png" := Reg (File Sample.png_a true true) ]} ]}
           [ErrorOccurred Sample.url_a PermissionError]).
Proof. vm_compute. reflexivity. Qed.

Lemma valid_all_species : valid_table Sample.num Sample.is_nan Sample.all_species.
Proof.
  split.
  - apply (bool_decide_unpack _). reflexivity.
  - repeat constructor; eexists; (split; [reflexivity | simpl; lia]).
Defined.

Lemma aggregate_keys_are_categories_witness :
  (groupby_mean Sample.num Sample.mean groupby_observed_default
     Sample.all_species).*1 = Sample.three_species.
Proof.
  apply (aggregate_keys_are_categories Sample.num Sample.is_nan Sample.mean
           Sample.all_species valid_all_species).
Defined.

(** C4 fails as stated: a table of the bundled kind without rows.
    Its aggregate has the three categories as keys, though none is
    present and the table is empty. *)
Lemma aggregate_keys_counterexample :
  valid_table Sample.num Sample.is_nan Sample.no_rows /\
  rows Sample.num Sample.no_rows = [] /\
  present Sample.num Sample.no_rows = [] /\
  (groupby_mean Sample.num Sample.mean groupby_observed_default
     Sample.no_rows).*1 = ["setosa"; "versicolor"; "virginica"] /\
  groupby_mean Sample.num Sample.mean groupby_observed_default Sample.no_rows
  <> [].
Proof.
  split_and!; try reflexivity; [|discriminate].
  split; [apply (bool_decide_unpack _); reflexivity | constructor].
Qed.

(** C3 fails as stated: a table of the bundled kind in which one
    species occurs.  The analyzer raises nothing: it names the third
    category and returns the aggregate of three entries. *)
Lemma analyze_positional_indexing_counterexample :
  valid_table Sample.num Sample.is_nan Sample.only_setosa /\
  present Sample.num Sample.only_setosa = ["setosa"] /\
  let run := Sample.analyze Sample.only_setosa Sample.empty_world in
  run.1 = Return (groupby_mean Sample.num Sample.mean false Sample.only_setosa) /\
  last (stdout run.2) = Some (LargestSepal "virginica").
Proof.
  split.
  { split.
    - apply (bool_decide_unpack _). reflexivity.
    - repeat constructor; eexists; (split; [reflexivity | simpl; lia]). }
  split; [reflexivity|]. cbv zeta. split; reflexivity.
Qed.

(** C7 fails as stated: the chart directory holds a fetched image
    before the run; after the run it holds five files. *)
Lemma visualizer_writes_four_charts_counterexample :
  let run := Sample.visualize Sample.all_species Sample.visited_world in
  run.1 = Return tt /\
  exists d, fs run.2 !! charts_dir = Some (Directory d) /\
            size d = 5 /\
            d !! "cat.jpg" = Some (Reg (File Sample.png_a true true)).
Proof.
  split; [reflexivity|]. eexists. split; [vm_compute; reflexivity|].
  split; reflexivity.
Qed.

Lemma visualizer_writes_four_charts_witness :
  let w' := (Sample.visualize Sample.all_species Sample.empty_world).2 in
  Sample.visualize Sample.all_species w' = (Return tt, w').
Proof.
  intros w'.
  destruct (visualizer_writes_four_charts Sample.num (Sample.plot x01)
              (Sample.plot x02) (Sample.plot x03) (Sample.plot x04)
              Sample.all_species Sample.empty_world w')
    as (d0 & d' & p1 & p2 & p3 & p4 & H).
  - reflexivity.
  - apply H.
Defined.


(** * Further properties of the fetcher *)

Section FetcherRejections.

Context {digest : Type} `{EqDecision digest}.
Variable urlparse : string -> option parse_result.
Variable py_int : string -> option Z.
Variable sha256 : list byte -> digest.

Abbreviation fetch_ := (fetch_and_save_image urlparse py_int sha256).






End FetcherRejections.

(** * Names and paths *)

Lemma app_cons (c : ascii) (s t : string) : String c s +:+ t = String c (s +:+ t).
Proof. reflexivity. Qed.

Lemma contains_app (c : ascii) (s t : string) :
  Str.contains c (s +:+ t) = Str.contains c s || Str.contains c t.
Proof.
  induction s as [|a s IH]; [done|].
  rewrite app_cons. simpl. rewrite IH. by destruct (Ascii.eqb a c).
Qed.

Lemma after_last_None (sep : ascii) (s : string) :
  Str.after_last sep s = None <-> Str.contains sep s = false.
Proof.
  induction s as [|c s IH]; [done|]. simpl.
  destruct (Str.after_last sep s) as [t|].
  - split; [done|]. intros [_ Hs]%orb_false_iff.
    by apply IH in Hs.
  - destruct (Ascii.eqb c sep); [done|]. simpl. split; [|done].
    intros _. by apply IH.
Qed.

Lemma after_last_Some (sep : ascii) (s t : string) :
  Str.after_last sep s = Some t ->
  Str.contains sep t = false /\ exists pre, s = pre +:+ String sep t.
Proof.
  revert t. induction s as [|c s IH]; intros t; [done|]. simpl.
  destruct (Str.after_last sep s) as [t'|] eqn:Hs.
  - intros [= <-]. destruct (IH t' eq_refl) as [Hno (pre & ->)].
    split; [done|]. by exists (String c pre).
  - destruct (Ascii.eqb c sep) eqn:Hc; [|done]. intros [= <-].
    apply Ascii.eqb_eq in Hc as ->. split; [by apply after_last_None|].
    by exists "".
Qed.

Lemma after_last_app (sep : ascii) (pre t : string) :
  Str.contains sep t = false ->
  Str.after_last sep (pre +:+ String sep t) = Some t.
Proof.
  intros Hno. induction pre as [|c pre IH].
  - change ("" +:+ String sep t) with (String sep t). simpl.
    rewrite (proj2 (after_last_None sep t) Hno). by rewrite Ascii.eqb_refl.
  - rewrite app_cons. simpl. by rewrite IH.
Qed.

Lemma last_segment_no_sep (sep : ascii) (s : string) :
  Str.contains sep (Str.last_segment sep s) = false.
Proof.
  unfold Str.last_segment.
  destruct (Str.after_last sep s) as [t|] eqn:Hs; simpl.
  - by apply after_last_Some in Hs as [? _].
  - by apply after_last_None.
Qed.

(** [os.path.basename]: what it returns has no slash; a path without
    a slash is its own base name; and the base name of
    [os.path.join(d, n)] is [n] when [n] has no slash. *)
Theorem basename_of_join (d n p : string) :
  Str.contains "/" (basename p) = false /\
  (Str.contains "/" p = false -> basename p = p) /\
  (Str.contains "/" n = false -> basename (d +:+ "/" +:+ n) = n).
Proof.
  unfold basename, Str.last_segment. split_and!.
  - apply last_segment_no_sep.
  - intros Hno. by rewrite (proj2 (after_last_None "/" p) Hno).
  - intros Hno. change (d +:+ "/" +:+ n) with (d +:+ String "/" n).
    by rewrite after_last_app.
Qed.

Lemma split_last_Some (sep : ascii) (s b e : string) :
  Str.split_last sep s = Some (b, e) ->
  s = b +:+ e /\ exists t, e = String sep t /\ Str.contains sep t = false.
Proof.
  revert b e. induction s as [|c s IH]; intros b e; [done|]. simpl.
  destruct (Str.split_last sep s) as [[b' e']|] eqn:Hs.
  - intros [= <- <-]. destruct (IH b' e' eq_refl) as [-> Ht].
    split; [done | exact Ht].
  - destruct (Ascii.eqb c sep) eqn:Hc; [|done]. intros [= <- <-].
    apply Ascii.eqb_eq in Hc as ->. split; [done|]. exists s. split; [done|].
    clear IH. induction s as [|a s IH]; [done|]. simpl in *.
    destruct (Str.split_last sep s) as [[? ?]|]; [done|].
    destruct (Ascii.eqb a sep); [done|]. simpl. by apply IH.
Qed.

Lemma split_last_None (sep : ascii) (s : string) :
  Str.contains sep s = false -> Str.split_last sep s = None.
Proof.
  induction s as [|a s IH]; [done|]. simpl.
  intros [Ha Hs]%orb_false_iff. by rewrite IH, Ha.
Qed.

(** [os.path.splitext]: root and extension put together give the
    name back; the extension is empty or is a dot followed by text
    without a dot; a name without a dot, and a name that is one dot
    followed by text without a dot, have no extension. *)
Theorem splitext_parts (p : string) :
  (splitext p).1 +:+ (splitext p).2 = p /\
  ((splitext p).2 = "" \/
   exists t, (splitext p).2 = String "." t /\ Str.contains "." t = false) /\
  (Str.contains "." p = false -> splitext p = (p, "")) /\
  (forall t, p = String "." t -> Str.contains "." t = false ->
             splitext p = (p, "")).
Proof.
  assert (Hnil : forall s, s +:+ "" = s).
  { intros s. induction s as [|c s IH]; [done|]. by rewrite app_cons, IH. }
  unfold splitext. split_and!.
  - destruct (Str.split_last "." p) as [[b e]|] eqn:Hp; simpl; [|apply Hnil].
    destruct (Str.all_dots b); simpl; [apply Hnil|].
    by apply split_last_Some in Hp as [-> _].
  - destruct (Str.split_last "." p) as [[b e]|] eqn:Hp; simpl; [|by left].
    destruct (Str.all_dots b); simpl; [by left|].
    right. by apply split_last_Some in Hp as [_ Ht].
  - intros Hno. by rewrite split_last_None.
  - intros t -> Hno. simpl. by rewrite (split_last_None "." t Hno).
Qed.

(** The derived file name (lines 57-61) is never empty and always
    has a dot in it; and when the formatted clock reading has no
    slash, the name has none either, so that the temporary and the
    final file are entries of the output directory itself. *)
Theorem derive_filename_shape (e : env) (parsed_url : parse_result)
    (r : response) :
  derive_filename e parsed_url r <> "" /\
  Str.contains "." (derive_filename e parsed_url r) = true /\
  (Str.contains "/" (now e) = false ->
   Str.contains "/" (derive_filename e parsed_url r) = false).
Proof.
  unfold derive_filename.
  destruct (bool_decide (basename (url_path parsed_url) = "")) eqn:Hempty;
    simpl.
  - split_and!; [done| |].
    + rewrite !contains_app. simpl. by rewrite !orb_true_r.
    + intros Hnow. rewrite !contains_app, Hnow. simpl.
      destruct (Str.contains "/" (default "image/jpeg" (content_type r)));
        [|done].
      apply last_segment_no_sep.
  - apply bool_decide_eq_false in Hempty.
    destruct (Str.contains "." (basename (url_path parsed_url))) eqn:Hdot;
      simpl.
    + split_and!; [done..|]. intros _. apply last_segment_no_sep.
    + split_and!; [done| |].
      * rewrite !contains_app. simpl. by rewrite !orb_true_r.
      * intros Hnow. rewrite !contains_app, Hnow. simpl.
        destruct (Str.contains "/" (default "image/jpeg" (content_type r)));
          [|done].
        apply last_segment_no_sep.
Qed.

(** * Colliding names *)





Section CollidingNames.

Context {digest : Type} `{EqDecision digest}.
Variable urlparse : string -> option parse_result.
Variable py_int : string -> option Z.
Variable sha256 : list byte -> digest.

Abbreviation fetch := (fetch_and_save_image urlparse py_int sha256).


End CollidingNames.



(** * What the fetcher leaves alone *)

Lemma read_only_ret {A} (a : A) : read_only (ret a).
Proof. by intros w. Qed.

Lemma read_only_raise {A} (e : exn) : read_only (raise (A := A) e).
Proof. by intros w. Qed.

Lemma read_only_diverge {A} : read_only (diverge (A := A)).
Proof. by intros w. Qed.

Lemma read_only_get_fs : read_only get_fs.
Proof. by intros w. Qed.

Lemma read_only_bind {A B} (m : M A) (k : A -> M B) :
  read_only m -> (forall a, read_only (k a)) -> read_only (bind m k).
Proof.
  intros Hm Hk w. unfold bind. specialize (Hm w).
  destruct (m w) as [[a|e|] w']; simpl in *; subst; [apply Hk | done | done].
Qed.

Create HintDb ro discriminated.
#[export] Hint Resolve read_only_ret read_only_raise read_only_diverge
  read_only_get_fs : ro.

Ltac ro_step :=
  lazymatch goal with
  | |- read_only (bind _ _) => apply read_only_bind; [|intros ?]
  | |- read_only (if ?b then _ else _) => destruct b
  | |- read_only (match ?x with _ => _ end) => destruct x
  | |- read_only _ => solve [auto with ro]
  end.
Ltac ro_auto := repeat ro_step.

Lemma read_only_entries_of p : read_only (entries_of p).
Proof. unfold entries_of. ro_auto. Qed.
#[export] Hint Resolve read_only_entries_of : ro.

Lemma read_only_exists p : read_only (os_path_exists p).
Proof. unfold os_path_exists. ro_auto. Qed.

Lemma read_only_isfile p : read_only (os_path_isfile p).
Proof. unfold os_path_isfile. ro_auto. Qed.

Lemma read_only_listdir p : read_only (os_listdir p).
Proof. unfold os_listdir. ro_auto. Qed.

Lemma read_only_read_file p : read_only (read_file p).
Proof. unfold read_file. ro_auto. Qed.

#[export] Hint Resolve read_only_exists read_only_isfile read_only_listdir
  read_only_read_file : ro.

Lemma read_only_loop_bound p : read_only (loop_bound p).
Proof. unfold loop_bound. ro_auto. Qed.
#[export] Hint Resolve read_only_loop_bound : ro.

Lemma read_only_loop fuel dirp base ext k :
  read_only (get_unique_filename_loop fuel dirp base ext k).
Proof.
  revert k. induction fuel as [|fuel IH]; intros k; simpl; ro_auto.
Qed.
#[export] Hint Resolve read_only_loop : ro.


Lemma keeps_read_only {A} (I : world -> Prop) (m : M A) :
  read_only m -> keeps I m.
Proof. intros Hm w HI. by rewrite Hm. Qed.

Lemma keeps_bind {A B} (I : world -> Prop) (m : M A) (k : A -> M B) :
  keeps I m -> (forall a, keeps I (k a)) -> keeps I (bind m k).
Proof.
  intros Hm Hk w HI. unfold bind. specialize (Hm w HI).
  destruct (m w) as [[a|e|] w']; simpl in *; [by apply Hk | done | done].
Qed.

Lemma keeps_try_except {A} (I : world -> Prop) (m : M A) (h : exn -> M A) :
  keeps I m -> (forall e, keeps I (h e)) -> keeps I (try_except m h).
Proof.
  intros Hm Hh w HI. unfold try_except. specialize (Hm w HI).
  destruct (m w) as [[a|e|] w']; simpl in *; [done | by apply Hh | done].
Qed.

Lemma entries_of_Return (p : string) (w w1 : world) (d : gmap string node) :
  entries_of p w = (Return d, w1) -> fs w !! p = Some (Directory d) /\ w1 = w.
Proof.
  unfold entries_of, bind, get_fs, ret, raise.
  destruct (fs w !! p) as [[d1|]|]; [|done..]. by intros [= -> ->].
Qed.

Section Frame.

Variables (out temp : string) (w0 : world).

Abbreviation FI := (frame_inv out temp w0).

Lemma frame_inv_refl : FI w0.
Proof. split_and!; [done | | done]. intros d0 Hd0. by exists d0. Qed.

(** The invariant looks at the file system only. *)
Lemma frame_inv_fs (w w' : world) : fs w' = fs w -> FI w -> FI w'.
Proof. unfold frame_inv. by intros ->. Qed.

Lemma keeps_print (l : line) : keeps FI (print l).
Proof. intros w HI. by apply (frame_inv_fs w). Qed.

(** Replacing the entries of [out] by entries that still have all
    that the earlier state had, the temporary name apart. *)
Lemma frame_inv_set_entries (w : world) (d d' : gmap string node) :
  FI w ->
  fs w !! out = Some (Directory d) ->
  (forall n x, n <> temp -> d !! n = Some x -> d' !! n = Some x) ->
  FI (set_entries out d' w).2.
Proof.
  intros (Hout & Hdir & Hnot) Hd Hkeep.
  change (set_entries out d' w).2
    with (World (<[out := Directory d']> (fs w)) (stdout w)).
  unfold frame_inv. cbn [fs]. split_and!.
  - intros p Hp. rewrite lookup_insert_ne by done. by apply Hout.
  - intros d0 Hd0. destruct (Hdir d0 Hd0) as (d1 & Hd1 & Hkept).
    rewrite Hd in Hd1. injection Hd1 as <-.
    exists d'. rewrite lookup_insert_eq. split; [done|].
    intros n x Hn Hx. by apply Hkeep, Hkept.
  - intros Hn0. apply Hnot in Hn0. congruence.
Qed.

Lemma keeps_makedirs : keeps FI (os_makedirs_exist_ok out).
Proof.
  intros w HI. unfold os_makedirs_exist_ok.
  destruct (bool_decide (out = "")); [done|].
  unfold bind, get_fs, set_fs. destruct (fs w !! out) as [[d|]|] eqn:Hd;
    cbn [snd]; [done..|].
  destruct HI as (Hout & Hdir & Hnot). unfold frame_inv. cbn [fs]. split_and!.
  - intros p Hp. rewrite lookup_insert_ne by done. by apply Hout.
  - intros d0 Hd0. destruct (Hdir d0 Hd0) as (d1 & Hd1 & _). congruence.
  - intros Hn0. apply Hnot in Hn0. congruence.
Qed.

Lemma keeps_write_temp (data : list byte) :
  keeps FI (write_file (Join out temp) data).
Proof.
  intros w HI. unfold write_file, bind. cbn [pdir pname].
  pose proof (read_only_entries_of out w) as Hro.
  destruct (entries_of out w) as [[d|e|] w1] eqn:Hent; simpl in Hro; subst w1;
    [|done..].
  apply entries_of_Return in Hent as [Hd _].
  destruct (lookup_node d temp) as [[f|]|]; [|done|].
  - destruct (writable f); [|done].
    apply (frame_inv_set_entries w d); [done..|].
    intros n x Hn Hx. by rewrite lookup_insert_ne.
  - apply (frame_inv_set_entries w d); [done..|].
    intros n x Hn Hx. by rewrite lookup_insert_ne.
Qed.

Lemma keeps_remove_temp : keeps FI (os_remove (Join out temp)).
Proof.
  intros w HI. unfold os_remove, bind. cbn [pdir pname].
  pose proof (read_only_entries_of out w) as Hro.
  destruct (entries_of out w) as [[d|e|] w1] eqn:Hent; simpl in Hro; subst w1;
    [|done..].
  apply entries_of_Return in Hent as [Hd _].
  destruct (lookup_node d temp) as [[f|]|]; [|done..].
  apply (frame_inv_set_entries w d); [done..|].
  intros n x Hn Hx. by rewrite lookup_delete_ne.
Qed.

(** Renaming the temporary file to a name that is free. *)
Lemma frame_inv_rename (w : world) (final : string) :
  FI w ->
  (forall d, fs w !! out = Some (Directory d) -> exists_in d final = false) ->
  FI (os_rename (Join out temp) (Join out final) w).2.
Proof.
  intros HI Hfree. unfold os_rename, bind. cbn [pdir pname].
  pose proof (read_only_entries_of out w) as Hro.
  destruct (entries_of out w) as [[d|e|] w1] eqn:Hent; simpl in Hro; subst w1;
    [|done..].
  apply entries_of_Return in Hent as [Hd _].
  destruct (free_name d final (Hfree d Hd)) as [Hdot Hnone].
  destruct (lookup_node d temp) as [[f|]|]; [|done..].
  unfold lookup_node. rewrite Hdot, Hnone.
  apply (frame_inv_set_entries w d); [done..|].
  intros n x Hn Hx. rewrite lookup_insert_ne by congruence.
  by rewrite lookup_delete_ne.
Qed.

End Frame.

Lemma get_unique_filename_free (p : path) (w : world) :
  exists final,
    get_unique_filename p w = (Return (Join (pdir p) final), w) /\
    forall d, fs w !! pdir p = Some (Directory d) -> exists_in d final = false.
Proof.
  destruct p as [out name]. cbn [pdir].
  destruct (fs w !! out) as [[d|]|] eqn:Hdir.
  - destruct (run_get_unique_filename w out name d Hdir) as (final & Hrun & Hu).
    exists final. split; [done|]. intros d' [= <-].
    by apply (unique_name_free d name).
  - exists name. split; [|done].
    unfold get_unique_filename, os_path_exists, bind, get_fs.
    cbn [pdir pname]. by rewrite Hdir.
  - exists name. split; [|done].
    unfold get_unique_filename, os_path_exists, bind, get_fs.
    cbn [pdir pname]. by rewrite Hdir.
Qed.

Section FetcherFrame.

Context {digest : Type} `{EqDecision digest}.
Variable urlparse : string -> option parse_result.
Variable py_int : string -> option Z.
Variable sha256 : list byte -> digest.

Lemma read_only_calculate_file_hash p :
  read_only (calculate_file_hash sha256 p).
Proof. unfold calculate_file_hash. ro_auto. Qed.

Lemma read_only_raise_for_status r : read_only (raise_for_status r).
Proof. unfold raise_for_status. ro_auto. Qed.

Lemma read_only_content_length_too_large r :
  read_only (content_length_too_large py_int r).
Proof. unfold content_length_too_large. ro_auto. Qed.

Variables (out temp : string) (w0 : world).

Lemma keeps_scan_existing url h listing :
  keeps (frame_inv out temp w0)
    (scan_existing sha256 url out (Join out temp) h listing).
Proof.
  induction listing as [|n rest IH]; simpl.
  - apply keeps_read_only, read_only_ret.
  - destruct (Str.startswith n "temp_"); [exact IH|].
    apply keeps_bind; [apply keeps_read_only, read_only_isfile|].
    intros [|]; [|exact IH].
    apply keeps_bind; [apply keeps_read_only, read_only_calculate_file_hash|].
    intros h'. destruct (bool_decide (h' = h)); [|exact IH].
    apply keeps_bind; [apply keeps_print|]. intros _.
    apply keeps_bind; [apply keeps_remove_temp|]. intros _.
    apply keeps_read_only, read_only_ret.
Qed.

Lemma keeps_save_image url filename r :
  temp = "temp_" +:+ filename ->
  keeps (frame_inv out temp w0) (save_image sha256 url out filename r).
Proof.
  intros Htemp. unfold save_image. rewrite <- Htemp.
  apply keeps_bind; [apply keeps_makedirs|]. intros _.
  apply keeps_bind; [apply keeps_write_temp|]. intros _.
  apply keeps_bind; [apply keeps_read_only, read_only_calculate_file_hash|].
  intros h.
  apply keeps_bind; [apply keeps_read_only, read_only_listdir|].
  intros listing.
  apply keeps_bind; [apply keeps_scan_existing|].
  intros [b|]; [apply keeps_read_only, read_only_ret|].
  intros w HI. unfold bind at 1.
  destruct (get_unique_filename_free (Join out filename) w)
    as (final & -> & Hfree).
  cbn [pdir] in *. unfold bind at 1.
  pose proof (frame_inv_rename out _ w0 w final HI Hfree) as HI'.
  destruct (os_rename _ _ w) as [[[]|e|] w']; simpl in HI'; [|done..].
  eapply (keeps_bind _ _ _ (keeps_print _ _ _ _)); [|exact HI'].
  intros _.
  eapply (keeps_bind _ _ _ (keeps_print _ _ _ _)).
  intros _. apply keeps_read_only, read_only_ret.
Qed.

Lemma keeps_fetch_body e url :
  (forall parsed_url r,
     urlparse url = Some parsed_url -> requests_get e url = inr r ->
     temp = "temp_" +:+ derive_filename e parsed_url r) ->
  keeps (frame_inv out temp w0) (fetch_body urlparse py_int sha256 e url out).
Proof.
  intros Htemp. unfold fetch_body.
  destruct (urlparse url) as [parsed_url|];
    [|apply keeps_read_only, read_only_raise].
  destruct (negb _).
  { apply keeps_bind; [apply keeps_print|]. intros _.
    apply keeps_read_only, read_only_ret. }
  destruct (requests_get e url) as [ex|r];
    [apply keeps_read_only, read_only_raise|].
  apply keeps_bind; [apply keeps_read_only, read_only_raise_for_status|].
  intros _. destruct (negb _).
  { apply keeps_bind; [apply keeps_print|]. intros _.
    apply keeps_read_only, read_only_ret. }
  apply keeps_bind;
    [apply keeps_read_only, read_only_content_length_too_large|].
  intros [|].
  { apply keeps_bind; [apply keeps_print|]. intros _.
    apply keeps_read_only, read_only_ret. }
  apply keeps_save_image. by apply Htemp.
Qed.

Lemma keeps_fetch e url :
  (forall parsed_url r,
     urlparse url = Some parsed_url -> requests_get e url = inr r ->
     temp = "temp_" +:+ derive_filename e parsed_url r) ->
  keeps (frame_inv out temp w0)
    (fetch_and_save_image urlparse py_int sha256 e url out).
Proof.
  intros Htemp. unfold fetch_and_save_image.
  apply keeps_try_except; [by apply keeps_fetch_body|].
  intros ex. unfold fetch_handler. destruct (is_RequestException ex);
    (apply keeps_bind; [apply keeps_print|]; intros _;
     apply keeps_read_only, read_only_ret).
Qed.

End FetcherFrame.

Section FetcherFrameTheorem.

Context {digest : Type} `{EqDecision digest}.
Variable urlparse : string -> option parse_result.
Variable py_int : string -> option Z.
Variable sha256 : list byte -> digest.

(** Whatever the URL, the network answer and the state, and however
    the invocation ends: in an output directory that is there,
    [fetch_and_save_image] changes or removes no entry whose name
    does not begin with [temp_] (files are only added); when the
    output path is there and is not a directory it stays what it is;
    and when the output directory is named by one path component (no
    slash, as the default [Fetched_Images]), nothing outside it is
    changed. *)
Theorem fetch_keeps_existing_entries (e : env) (url out : string) (w : world) :
  let w' := (fetch_and_save_image urlparse py_int sha256 e url out w).2 in
  (Str.contains "/" out = false ->
   forall p, p <> out -> fs w' !! p = fs w !! p) /\
  (forall d, fs w !! out = Some (Directory d) ->
     exists d', fs w' !! out = Some (Directory d') /\
                forall n x, is_temp n = false -> d !! n = Some x ->
                            d' !! n = Some x) /\
  (fs w !! out = Some NotDir -> fs w' !! out = Some NotDir).
Proof.
  intros w'.
  set (temp := match urlparse url, requests_get e url with
               | Some parsed_url, inr r => "temp_" +:+ derive_filename e parsed_url r
               | _, _ => "temp_"
               end).
  assert (Htemp : is_temp temp = true).
  { unfold temp. destruct (urlparse url); [|done].
    destruct (requests_get e url); [done | apply is_temp_temp]. }
  assert (HI : frame_inv out temp w w').
  { apply (keeps_fetch urlparse py_int sha256 out temp w e url);
      [|apply frame_inv_refl].
    intros parsed_url r Hp Hr. unfold temp. by rewrite Hp, Hr. }
  destruct HI as (Hout & Hdir & Hnot). split_and!; [by intros _| |done].
  intros d Hd. destruct (Hdir d Hd) as (d' & Hd' & Hkept).
  exists d'. split; [done|]. intros n x Hn Hx. apply Hkept; [|done].
  intros ->. congruence.
Qed.

End FetcherFrameTheorem.

(** * What [get_unique_filename] returns *)

(** [get_unique_filename] returns from every state, without changing
    it, a path of the same directory that does not exist: the path
    it was given when that one does not exist, else the name with
    [_j] before the extension for the least [j >= 1] that gives a
    path that does not exist. *)
Theorem get_unique_filename_returns (p : path) (w : world) :
  exists final,
    get_unique_filename p w = (Return (Join (pdir p) final), w) /\
    os_path_exists (Join (pdir p) final) w = (Return false, w) /\
    (os_path_exists p w = (Return false, w) -> final = pname p) /\
    (os_path_exists p w = (Return true, w) ->
     exists j, 1 <= j /\
       final = candidate (splitext (pname p)).1 (splitext (pname p)).2 j /\
       forall i, 1 <= i < j ->
         os_path_exists
           (Join (pdir p)
              (candidate (splitext (pname p)).1 (splitext (pname p)).2 i)) w
         = (Return true, w)).
Proof.
  destruct p as [out name]. cbn [pdir pname].
  destruct (fs w !! out) as [[d|]|] eqn:Hdir.
  - destruct (run_get_unique_filename w out name d Hdir) as (final & Hrun & Hu).
    exists final. rewrite !(run_exists w out d Hdir). split; [done|].
    split; [by rewrite (unique_name_free d name final Hu)|].
    destruct Hu as [[Hfree ->]|[Hex (j & Hj & -> & Hfree & Hbelow)]].
    + split; [done|]. rewrite Hfree. by intros [=].
    + split; [rewrite Hex; by intros [=]|]. intros _.
      exists j. split; [done|]. split; [done|]. intros i Hi.
      by rewrite (run_exists w out d Hdir), Hbelow.
  - assert (Hex : forall n, os_path_exists (Join out n) w = (Return false, w)).
    { intros n. unfold os_path_exists, bind, get_fs. cbn [pdir pname].
      by rewrite Hdir. }
    exists name. rewrite !Hex. split_and!; [|done|done|by intros [=]].
    unfold get_unique_filename, bind. by rewrite Hex.
  - assert (Hex : forall n, os_path_exists (Join out n) w = (Return false, w)).
    { intros n. unfold os_path_exists, bind, get_fs. cbn [pdir pname].
      by rewrite Hdir. }
    exists name. rewrite !Hex. split_and!; [|done|done|by intros [=]].
    unfold get_unique_filename, bind. by rewrite Hex.
Qed.

(** * The outcome of an accepted fetch *)

Section FetcherOutcome.

Context {digest : Type} `{EqDecision digest}.
Variable urlparse : string -> option parse_result.
Variable py_int : string -> option Z.
Variable sha256 : list byte -> digest.



End FetcherOutcome.

(** * Further properties of the loader *)

Section LoaderExtras.

Variable float : Type.
Variable is_nan : float -> bool.
Variable load_iris : exn + bunch float.

Abbreviation load_ := (load_and_explore_data float is_nan load_iris).

(** The label of a class code, as [from_codes] gives it. *)
Abbreviation label_of := (fun c : Z => if (c =? -1)%Z then None else Some (Z.to_nat c)).

Lemma loaded_Some (df : table float) :
  loaded float is_nan load_iris = Some df ->
  exists iris,
    load_iris = inr iris /\
    NoDup (target_names float iris) /\
    Forall (fun c => (-1 <= c < Z.of_nat (length (target_names float iris)))%Z)
           (samples float iris).*2 /\
    df = dropna float is_nan
           (Table float (target_names float iris)
              (zip_with (Row float) (samples float iris).*1
                 (map label_of (samples float iris).*2))).
Proof.
  unfold loaded. destruct load_iris as [e|iris]; [done|].
  destruct (bool_decide (NoDup (target_names float iris))) eqn:Hnd; [|done].
  destruct (forallb _ _) eqn:Hcodes; [|done]. simpl. intros [= <-].
  exists iris. split_and!; [done | by apply bool_decide_eq_true in Hnd | | done].
  apply Forall_forall. intros c Hc%list_elem_of_In.
  rewrite forallb_forall in Hcodes. specialize (Hcodes c Hc).
  apply andb_true_iff in Hcodes as [?%Z.leb_le ?%Z.ltb_lt]. lia.
Qed.

(** Whatever the bundled data, a table the loader returns is a valid
    observation table: its categories are the class names, all
    different; no row has a missing measurement or label; every label
    is the code of one of the categories.  It has at most as many
    rows as the data has samples. *)
Theorem loader_returns_valid_table (w : world) (df : table float) :
  (load_ w).1 = Return (Some df) ->
  valid_table float is_nan df /\
  exists iris, load_iris = inr iris /\
               categories float df = target_names float iris /\
               length (rows float df) <= length (samples float iris).
Proof.
  destruct (run_load float is_nan load_iris w) as (log & ->). simpl.
  intros [= Hl]. apply loaded_Some in Hl as (iris & Hiris & Hnd & Hcodes & ->).
  split.
  - split; [done|]. simpl. apply Forall_forall. intros r Hr.
    apply list_elem_of_filter in Hr as [Hnull Hr].
    split; [done|].
    apply elem_of_zip_with in Hr as (v & l & -> & _ & Hl).
    apply list_elem_of_fmap in Hl as (c & -> & Hc).
    rewrite Forall_forall in Hcodes. specialize (Hcodes c Hc).
    unfold row_isnull in Hnull. apply orb_false_iff in Hnull as [_ Hnull].
    apply bool_decide_eq_false in Hnull. simpl in *.
    destruct (c =? -1)%Z eqn:Hc1; [done|]. apply Z.eqb_neq in Hc1.
    exists (Z.to_nat c). split; [done|]. lia.
  - exists iris. split_and!; [done..|]. simpl.
    etrans; [apply length_filter|].
    rewrite length_zip_with, !length_fmap. lia.
Qed.

(** On bundled data without a missing measurement or label (as the
    Iris data are), the table has one row for each sample, in the
    order of the samples, with the measurements of the sample and
    the code of its class. *)
Theorem loader_keeps_clean_rows (w : world) (df : table float)
    (iris : bunch float) :
  load_iris = inr iris ->
  (load_ w).1 = Return (Some df) ->
  Forall (fun s => row_isnull float is_nan (Row float s.1 (label_of s.2)) = false)
         (samples float iris) ->
  rows float df
  = map (fun s => Row float s.1 (Some (Z.to_nat s.2))) (samples float iris).
Proof.
  intros Hiris. destruct (run_load float is_nan load_iris w) as (log & ->).
  simpl. intros [= Hl] Hclean.
  apply loaded_Some in Hl as (iris' & Hiris' & _ & _ & ->).
  rewrite Hiris in Hiris'. injection Hiris' as <-. simpl.
  induction (samples float iris) as [|[v c] ss IH]; [done|].
  apply Forall_cons in Hclean as [Hs Hss]. simpl in *.
  rewrite filter_cons, decide_True by done. f_equal; [|by apply IH].
  unfold row_isnull in Hs. apply orb_false_iff in Hs as [_ Hs].
  apply bool_decide_eq_false in Hs. simpl in Hs.
  by destruct (c =? -1)%Z.
Qed.


End LoaderExtras.

(** * Further properties of the analyzer *)

Lemma sum_indicator (k a n : nat) :
  sum_list_with (fun c => if decide (k = c) then 1 else 0) (seq a n)
  = if decide (a <= k < a + n) then 1 else 0.
Proof.
  revert a. induction n as [|n IH]; intros a; simpl.
  - case_decide; [lia | done].
  - rewrite IH. repeat case_decide; lia.
Qed.

Lemma sum_list_with_add {A} (f g : A -> nat) (l : list A) :
  sum_list_with (fun x => f x + g x) l = sum_list_with f l + sum_list_with g l.
Proof. induction l as [|x l IH]; simpl; [done | rewrite IH; lia]. Qed.

Lemma sum_list_with_ext {A} (f g : A -> nat) (l : list A) :
  (forall x, f x = g x) -> sum_list_with f l = sum_list_with g l.
Proof. intros Hfg. induction l as [|x l IH]; simpl; [done | by rewrite Hfg, IH]. Qed.

Section AnalyzerExtras.

Variable float : Type.
Variable is_nan : float -> bool.
Variable mean : list float -> float.

(** The groups of a valid table split its rows: no row is in two
    groups, and the sizes of the groups of all the categories add up
    to the number of rows. *)
Theorem groups_partition_rows (df : table float) :
  valid_table float is_nan df ->
  (forall r code code', r ∈ group_rows float df code ->
                        r ∈ group_rows float df code' -> code = code') /\
  sum_list_with (fun code => length (group_rows float df code))
    (seq 0 (length (categories float df)))
  = length (rows float df).
Proof.
  intros [_ Hrows]. split.
  - intros r code code' [H1 _]%list_elem_of_filter [H2 _]%list_elem_of_filter.
    congruence.
  - destruct df as [cats rs]. unfold group_rows. simpl in *.
    induction rs as [|r rs IH]; simpl.
    + clear. induction (seq 0 (length cats)) as [|c l IH]; simpl; done.
    + apply Forall_cons in Hrows as [(_ & code & Hcode & Hlt) Hrs].
      rewrite (sum_list_with_ext _
        (fun c => (if decide (code = c) then 1 else 0)
                  + length (filter (fun r => species float r = Some c) rs))).
      * rewrite sum_list_with_add, sum_indicator, (IH Hrs).
        rewrite decide_True by lia. done.
      * intros c. rewrite filter_cons. rewrite Hcode.
        destruct (decide (code = c)) as [->|Hne].
        -- by rewrite decide_True.
        -- rewrite decide_False; [done | congruence].
Qed.

(** The two observations are made by position.  For a table whose
    label column has at least three categories the analyzer prints
    its nine fixed lines and then names the first category as the one
    with the smallest mean petal length and the third as the one with
    the largest mean sepal length, whatever the rows and the means
    are; it returns the aggregate and leaves the file system alone. *)
Theorem analyzer_names_first_and_third (df : table float) (w : world)
    (c0 c1 c2 : string) (rest : list string) :
  categories float df = c0 :: c1 :: c2 :: rest ->
  analyze_data float mean df w
  = (Return (groupby_mean float mean groupby_observed_default df),
     World (fs w)
       (stdout w ++
        [Text "=== Data Analysis ==="; Text "Basic Statistics:";
         Shown "df.describe()"; Text "Mean values by species:";
         Shown "group_means"; Text "=== Observations ===";
         Text "- The dataset contains measurements for 150 iris flowers across three species.";
         Text "- Numerical columns: sepal length, sepal width, petal length, petal width (all in cm).";
         SmallestPetal c0; LargestSepal c2])).
Proof.
  intros Hcats. unfold analyze_data, groupby_observed_default.
  pose proof (aggregate_keys float mean df) as Hkeys. rewrite Hcats in Hkeys.
  destruct (groupby_mean float mean false df) as [|g0 [|g1 [|g2 gs]]] eqn:Hagg;
    [done..|].
  injection Hkeys as H0 H1 H2 Hrest.
  unfold bind, print, at_position, ret. simpl. rewrite H0, H2.
  do 2 f_equal. rewrite <- !app_assoc. done.
Qed.

End AnalyzerExtras.

(** * Further properties of the visualizer and of the pipeline *)

Lemma run_write_file_rewritten (w : world) (out n : string) (data : list byte)
    (d : gmap string node) :
  fs w !! out = Some (Directory d) ->
  is_dot_entry n = false ->
  can_write d n ->
  write_file (Join out n) data w
  = (Return tt,
     World (<[out := Directory (rewritten d n data)]> (fs w)) (stdout w)).
Proof.
  intros Hdir Hdot Hcan. unfold write_file, bind. cbn [pdir pname].
  rewrite (run_entries_of _ _ _ Hdir). unfold lookup_node, rewritten, can_write in *.
  rewrite Hdot. destruct (d !! n) as [[f|]|]; [|done|done].
  by rewrite Hcan.
Qed.

Lemma run_makedirs_world (w : world) (out : string) (d : gmap string node) :
  out <> "" ->
  entries_after_makedirs (fs w) out = Some d ->
  os_makedirs_exist_ok out w
  = (Return tt, World (<[out := Directory d]> (fs w)) (stdout w)).
Proof.
  intros Hout Hd.
  destruct (run_makedirs w out d Hout Hd) as (w' & -> & Hdir & Hlog & Hfs).
  f_equal. destruct w' as [f l]. simpl in *. subst l. f_equal.
  rewrite <- Hfs. by rewrite insert_id.
Qed.

Lemma can_write_rewritten (d : gmap string node) (n m : string) (data : list byte) :
  n <> m -> can_write d m -> can_write (rewritten d n data) m.
Proof.
  intros Hne. unfold can_write. rewrite rewritten_lookup.
  by rewrite decide_False.
Qed.

Section VisualizerExtras.

Variable float : Type.
Variable plot_trend plot_bar plot_hist plot_scatter
  : table float -> exn + list byte.

Abbreviation visualize_ :=
  (create_visualizations float plot_trend plot_bar plot_hist plot_scatter).

(** The charts are rendered and written one after the other, and
    nothing isolates them.  In a directory that is there or can be
    made and where the four names can be written: when a rendering
    raises, the visualizer raises the same exception, the charts
    before it have been written and none after it is; when all four
    render, it returns with the four written. *)
Theorem visualizer_stops_at_first_failure (df : table float) (w : world)
    (d0 : gmap string node) :
  entries_after_makedirs (fs w) charts_dir = Some d0 ->
  (forall n, n ∈ chart_names -> can_write d0 n) ->
  let after d := World (<[charts_dir := Directory d]> (fs w)) (stdout w) in
  (forall ex, plot_trend df = inl ex ->
     visualize_ df w = (Raise ex, after d0)) /\
  (forall p1 ex, plot_trend df = inr p1 -> plot_bar df = inl ex ->
     visualize_ df w = (Raise ex, after (rewritten d0 trend_png p1))) /\
  (forall p1 p2 ex,
     plot_trend df = inr p1 -> plot_bar df = inr p2 -> plot_hist df = inl ex ->
     visualize_ df w
     = (Raise ex, after (rewritten (rewritten d0 trend_png p1) bar_png p2))) /\
  (forall p1 p2 p3 ex,
     plot_trend df = inr p1 -> plot_bar df = inr p2 ->
     plot_hist df = inr p3 -> plot_scatter df = inl ex ->
     visualize_ df w
     = (Raise ex, after (rewritten (rewritten (rewritten d0 trend_png p1)
                                      bar_png p2) hist_png p3))) /\
  (forall p1 p2 p3 p4,
     plot_trend df = inr p1 -> plot_bar df = inr p2 ->
     plot_hist df = inr p3 -> plot_scatter df = inr p4 ->
     visualize_ df w
     = (Return tt, after (rewritten (rewritten (rewritten (rewritten d0
                            trend_png p1) bar_png p2) hist_png p3)
                            scatter_png p4))).
Proof.
  intros Hd0 Hcan after.
  assert (H1 : can_write d0 trend_png) by (apply Hcan; set_solver).
  assert (H2 : can_write d0 bar_png) by (apply Hcan; set_solver).
  assert (H3 : can_write d0 hist_png) by (apply Hcan; set_solver).
  assert (H4 : can_write d0 scatter_png) by (apply Hcan; set_solver).
  assert (Hmk := run_makedirs_world w charts_dir d0 ltac:(done) Hd0).
  assert (Hstep : forall d n data,
    is_dot_entry n = false -> can_write d n ->
    write_file (Join charts_dir n) data (after d)
    = (Return tt, after (rewritten d n data))).
  { intros d n data Hdot Hw.
    rewrite (run_write_file_rewritten (after d) charts_dir n data d);
      [|apply lookup_insert_eq|done|done].
    unfold after. simpl. by rewrite insert_insert_eq. }
  unfold create_visualizations, savefig. split_and!.
  - intros ex Hp1. unfold bind at 1. rewrite Hmk.
    unfold bind at 1. by rewrite Hp1.
  - intros p1 ex Hp1 Hp2. unfold bind at 1. rewrite Hmk.
    unfold bind at 1. rewrite Hp1. simpl lift. unfold ret at 1. cbv beta iota.
    unfold bind at 1. fold (after d0). rewrite (Hstep d0) by done.
    unfold bind at 1. by rewrite Hp2.
  - intros p1 p2 ex Hp1 Hp2 Hp3. unfold bind at 1. rewrite Hmk.
    unfold bind at 1. rewrite Hp1. simpl lift. unfold ret at 1. cbv beta iota.
    unfold bind at 1. fold (after d0). rewrite (Hstep d0) by done.
    unfold bind at 1. rewrite Hp2. simpl lift. unfold ret at 1. cbv beta iota.
    unfold bind at 1. rewrite Hstep by (done || by apply can_write_rewritten).
    unfold bind at 1. by rewrite Hp3.
  - intros p1 p2 p3 ex Hp1 Hp2 Hp3 Hp4. unfold bind at 1. rewrite Hmk.
    unfold bind at 1. rewrite Hp1. simpl lift. unfold ret at 1. cbv beta iota.
    unfold bind at 1. fold (after d0). rewrite (Hstep d0) by done.
    unfold bind at 1. rewrite Hp2. simpl lift. unfold ret at 1. cbv beta iota.
    unfold bind at 1. rewrite Hstep by (done || by apply can_write_rewritten).
    unfold bind at 1. rewrite Hp3. simpl lift. unfold ret at 1. cbv beta iota.
    unfold bind at 1.
    rewrite Hstep by (done || by do 2 (apply can_write_rewritten; [done|])).
    unfold bind at 1. by rewrite Hp4.
  - intros p1 p2 p3 p4 Hp1 Hp2 Hp3 Hp4. unfold bind at 1. rewrite Hmk.
    unfold bind at 1. rewrite Hp1. simpl lift. unfold ret at 1. cbv beta iota.
    unfold bind at 1. fold (after d0). rewrite (Hstep d0) by done.
    unfold bind at 1. rewrite Hp2. simpl lift. unfold ret at 1. cbv beta iota.
    unfold bind at 1. rewrite Hstep by (done || by apply can_write_rewritten).
    unfold bind at 1. rewrite Hp3. simpl lift. unfold ret at 1. cbv beta iota.
    unfold bind at 1.
    rewrite Hstep by (done || by do 2 (apply can_write_rewritten; [done|])).
    unfold bind at 1. rewrite Hp4. simpl lift. unfold ret at 1. cbv beta iota.
    apply Hstep; [done|]. by do 3 (apply can_write_rewritten; [done|]).
Qed.

(** When [Fetched_Images] exists and is not a directory,
    [os.makedirs] raises [FileExistsError]: the visualizer raises it
    before any figure is rendered, and changes nothing. *)
Theorem visualizer_needs_a_directory (df : table float) (w : world) :
  fs w !! charts_dir = Some NotDir ->
  visualize_ df w = (Raise FileExistsError, w).
Proof.
  intros Hnot. unfold create_visualizations.
  unfold bind at 1. unfold os_makedirs_exist_ok.
  rewrite bool_decide_eq_false_2 by done.
  unfold bind, get_fs. by rewrite Hnot.
Qed.

End VisualizerExtras.

Section PipelineExtras.

Variable float : Type.
Variable is_nan : float -> bool.
Variable mean : list float -> float.
Variable load_iris : exn + bunch float.
Variable plot_trend plot_bar plot_hist plot_scatter
  : table float -> exn + list byte.

Abbreviation pipeline :=
  (main float is_nan mean load_iris plot_trend plot_bar plot_hist plot_scatter).

Lemma run_analyze_fs (df : table float) (w : world) :
  exists log,
    analyze_data float mean df w
    = (if (length (categories float df) <? 3)%nat then Raise IndexError
       else Return (groupby_mean float mean groupby_observed_default df),
       World (fs w) log).
Proof.
  unfold analyze_data, groupby_observed_default.
  pose proof (aggregate_keys float mean df) as Hkeys.
  destruct (groupby_mean float mean false df) as [|g0 [|g1 [|g2 gs]]] eqn:Hagg;
    rewrite <- Hkeys; by eexists.
Qed.

Lemma run_load_None (w : world) :
  loaded float is_nan load_iris = None ->
  exists ex,
    load_and_explore_data float is_nan load_iris w
    = (Return None, World (fs w) (stdout w ++ [LoadFailed ex])).
Proof.
  unfold loaded, load_and_explore_data, try_except, load_body, lift, from_codes.
  destruct load_iris as [ex|iris]; [intros _; by exists ex|].
  unfold bind at 2. unfold bind at 2. simpl.
  destruct (bool_decide (NoDup (target_names float iris))); simpl;
    [|intros _; by exists ValueError].
  destruct (forallb _ _); simpl; [done|].
  intros _. by exists ValueError.
Qed.

(** When the loader returns [None], the pipeline returns at once:
    nothing is analyzed, no chart is written, the file system is as
    it was, and the last line printed is the failure line of the
    loader. *)
Theorem pipeline_stops_when_load_fails (w : world) :
  (load_and_explore_data float is_nan load_iris w).1 = Return None ->
  exists ex,
    pipeline w = (Return tt, World (fs w) (stdout w ++ [LoadFailed ex])).
Proof.
  intros Hnone.
  assert (Hl : loaded float is_nan load_iris = None).
  { destruct (run_load float is_nan load_iris w) as (log & Hrun).
    rewrite Hrun in Hnone. simpl in Hnone. congruence. }
  destruct (run_load_None w Hl) as (ex & Hrun).
  exists ex. unfold main. unfold bind at 1. by rewrite Hrun.
Qed.

(** When the loaded table has fewer than three categories, the
    [IndexError] of the analyzer is caught nowhere: the pipeline ends
    with it, before the visualizer runs, and the file system is as it
    was. *)
Theorem pipeline_raises_on_few_categories (w : world) (df : table float) :
  (load_and_explore_data float is_nan load_iris w).1 = Return (Some df) ->
  length (categories float df) < 3 ->
  exists log, pipeline w = (Raise IndexError, World (fs w) log).
Proof.
  intros Hload Hfew. unfold main. unfold bind at 1.
  destruct (run_load float is_nan load_iris w) as (log & Hrun).
  rewrite Hrun in *. simpl in Hload. injection Hload as ->.
  unfold bind at 1.
  destruct (run_analyze_fs df (World (fs w) log)) as (log' & ->).
  apply Nat.ltb_lt in Hfew. rewrite Hfew. by exists log'.
Qed.

(** When the loaded table has at least three categories, the four
    figures render, and the chart directory is there or can be made
    with the four names writable, the pipeline ends normally: the four
    charts are written over what the directory had, nothing else of
    the file system changes, and the last line printed is the last of
    the final notes. *)
Theorem pipeline_completes (w : world) (df : table float)
    (d0 : gmap string node) (p1 p2 p3 p4 : list byte) :
  (load_and_explore_data float is_nan load_iris w).1 = Return (Some df) ->
  3 <= length (categories float df) ->
  plot_trend df = inr p1 -> plot_bar df = inr p2 ->
  plot_hist df = inr p3 -> plot_scatter df = inr p4 ->
  entries_after_makedirs (fs w) charts_dir = Some d0 ->
  (forall n, n ∈ chart_names -> can_write d0 n) ->
  exists log,
    pipeline w
    = (Return tt,
       World (<[charts_dir :=
                  Directory (rewritten (rewritten (rewritten (rewritten d0
                               trend_png p1) bar_png p2) hist_png p3)
                               scatter_png p4)]> (fs w))
             (log ++ [Text "- The scatter plot reveals clear separation between species based on sepal and petal lengths."])).
Proof.
  intros Hload Hcats Hp1 Hp2 Hp3 Hp4 Hd0 Hcan. unfold main. unfold bind at 1.
  destruct (run_load float is_nan load_iris w) as (log & Hrun).
  rewrite Hrun in *. simpl in Hload. injection Hload as ->.
  unfold bind at 1.
  destruct (run_analyze_fs df (World (fs w) log)) as (log' & ->).
  rewrite (proj2 (Nat.ltb_ge _ _) Hcats). cbn [fs].
  unfold bind at 1.
  assert (H1 : can_write d0 trend_png) by (apply Hcan; set_solver).
  assert (H2 : can_write d0 bar_png) by (apply Hcan; set_solver).
  assert (H3 : can_write d0 hist_png) by (apply Hcan; set_solver).
  assert (H4 : can_write d0 scatter_png) by (apply Hcan; set_solver).
  set (after d := World (<[charts_dir := Directory d]> (fs w)) log').
  assert (Hstep : forall d n data,
    is_dot_entry n = false -> can_write d n ->
    write_file (Join charts_dir n) data (after d)
    = (Return tt, after (rewritten d n data))).
  { intros d n data Hdot Hw.
    rewrite (run_write_file_rewritten (after d) charts_dir n data d);
      [|apply lookup_insert_eq|done|done].
    unfold after. simpl. by rewrite insert_insert_eq. }
  assert (Hvis :
    create_visualizations float plot_trend plot_bar plot_hist plot_scatter df
      (World (fs w) log')
    = (Return tt, after (rewritten (rewritten (rewritten (rewritten d0
                           trend_png p1) bar_png p2) hist_png p3)
                           scatter_png p4))).
  { unfold create_visualizations, savefig. unfold bind at 1.
    rewrite (run_makedirs_world (World (fs w) log') charts_dir d0) by done.
    cbn [fs stdout]. fold (after d0).
    unfold bind at 1. rewrite Hp1. simpl lift. unfold ret at 1. cbv beta iota.
    unfold bind at 1. rewrite (Hstep d0) by done.
    unfold bind at 1. rewrite Hp2. simpl lift. unfold ret at 1. cbv beta iota.
    unfold bind at 1. rewrite Hstep by (done || by apply can_write_rewritten).
    unfold bind at 1. rewrite Hp3. simpl lift. unfold ret at 1. cbv beta iota.
    unfold bind at 1.
    rewrite Hstep by (done || by do 2 (apply can_write_rewritten; [done|])).
    unfold bind at 1. rewrite Hp4. simpl lift. unfold ret at 1. cbv beta iota.
    apply Hstep; [done|]. by do 3 (apply can_write_rewritten; [done|]). }
  rewrite Hvis. unfold bind, print, ret, after. simpl.
  by eexists.
Qed.

End PipelineExtras.

(** * The command line of the fetcher *)

Local Open Scope list_scope.










Lemma stdout_set_entries p d w : stdout (set_entries p d w).2 = stdout w.
Proof. done. Qed.





Section FetcherTally.

Context {digest : Type} `{EqDecision digest}.
Variable urlparse : string -> option parse_result.
Variable py_int : string -> option Z.
Variable sha256 : list byte -> digest.





Variable strip : string -> string.

Abbreviation fetch_each_ := (Libraries.fetch_each urlparse py_int sha256).
Abbreviation main_ := (Libraries.main urlparse py_int sha256 strip).




End FetcherTally.

(** * The content type and the pieces of the input line *)

Lemma lower_ascii_idem (c : ascii) :
  Str.lower_ascii (Str.lower_ascii c) = Str.lower_ascii c.
Proof. by destruct c as [[] [] [] [] [] [] [] []]. Qed.

Lemma lower_idem (s : string) : Str.lower (Str.lower s) = Str.lower s.
Proof.
  induction s as [|c s IH]; [done|]. simpl. by rewrite lower_ascii_idem, IH.
Qed.

Lemma startswith_iff (s pre : string) :
  Str.startswith s pre = true <-> exists rest, s = pre +:+ rest.
Proof.
  unfold Str.startswith. revert s. induction pre as [|a pre IH]; intros s.
  - split; [intros _; by exists s | intros _; by destruct s].
  - destruct s as [|b s]; simpl.
    + split; [done | by intros (rest & ?)].
    + destruct (ascii_dec a b) as [->|Hne].
      * rewrite IH. split.
        -- intros (rest & ->). by exists rest.
        -- intros (rest & Heq). rewrite app_cons in Heq.
           injection Heq as ->. by exists rest.
      * split; [done|]. intros (rest & Heq). rewrite app_cons in Heq.
        by injection Heq as -> _.
Qed.

(** The content-type check (lines 7-10): a response without the
    header is not an image; one with the header is an image exactly
    when the header text, lowercased, begins with [image/], whatever
    follows; and the verdict is the same for a header and for its
    lowercase form. *)
Theorem content_type_check (r : response) :
  (content_type r = None -> is_valid_image_content_type r = false) /\
  (forall ct, content_type r = Some ct ->
     (is_valid_image_content_type r = true
      <-> exists rest, Str.lower ct = "image/" +:+ rest)) /\
  (forall ct, content_type r = Some ct ->
     is_valid_image_content_type
       (Response (status_code r) (Some (Str.lower ct)) (content_length r) (body r))
     = is_valid_image_content_type r).
Proof.
  unfold is_valid_image_content_type. split_and!.
  - by intros ->.
  - intros ct ->. simpl. apply startswith_iff.
  - intros ct ->. simpl. by rewrite lower_idem.
Qed.

(** [split(',')] loses nothing: it always gives at least one piece,
    no piece has a comma, and the pieces joined by commas are the
    input again. *)
Theorem split_commas_join (s : string) :
  split_commas s <> [] /\
  Forall (fun piece => Str.contains "," piece = false) (split_commas s) /\
  String.concat "," (split_commas s) = s.
Proof.
  induction s as [|c s (Hne & Hall & Hjoin)]; [by repeat constructor|].
  simpl. destruct (Ascii.eqb c ",") eqn:Hc.
  - apply Ascii.eqb_eq in Hc as ->. split_and!; [done | by constructor |].
    destruct (split_commas s) as [|first others]; [done|].
    change (String.concat "," ("" :: first :: others))
      with ("" +:+ "," +:+ String.concat "," (first :: others)).
    by rewrite Hjoin.
  - destruct (split_commas s) as [|first others]; [done|].
    apply Forall_cons in Hall as [Hfirst Hothers].
    split_and!; [done | |].
    + constructor; [|done]. simpl. by rewrite Hc.
    + rewrite <- Hjoin. by destruct others.
Qed.

(** * The further properties on concrete inputs *)







Lemma loader_returns_valid_table_witness :
  valid_table Sample.num Sample.is_nan Sample.all_species.
Proof.
  apply (loader_returns_valid_table Sample.num Sample.is_nan (inr Cases.iris)
           Sample.empty_world Sample.all_species).
  reflexivity.
Defined.

Lemma loader_keeps_clean_rows_witness :
  length (rows Sample.num Sample.all_species) = 3.
Proof.
  rewrite (loader_keeps_clean_rows Sample.num Sample.is_nan (inr Cases.iris)
             Sample.empty_world Sample.all_species Cases.iris).
  - reflexivity.
  - reflexivity.
  - reflexivity.
  - repeat constructor.
Defined.


Lemma groups_partition_rows_witness :
  sum_list_with (fun code => length (group_rows Sample.num Sample.all_species code))
    (seq 0 3) = 3.
Proof.
  apply (groups_partition_rows Sample.num Sample.is_nan Sample.all_species
           valid_all_species).
Defined.

Lemma analyzer_names_first_and_third_witness :
  last (stdout (Sample.analyze Sample.all_species Sample.empty_world).2)
  = Some (LargestSepal "virginica").
Proof.
  unfold Sample.analyze.
  rewrite (analyzer_names_first_and_third Sample.num Sample.mean
             Sample.all_species Sample.empty_world
             "setosa" "versicolor" "virginica" []).
  - reflexivity.
  - reflexivity.
Defined.

Lemma can_write_empty (n : string) : can_write ∅ n.
Proof. unfold can_write. by rewrite lookup_empty. Qed.

Lemma visualizer_stops_at_first_failure_witness :
  create_visualizations Sample.num (Sample.plot x01) Cases.broken
    (Sample.plot x03) (Sample.plot x04) Sample.all_species Sample.empty_world
  = (Raise ValueError,
     World {[ charts_dir := Directory (rewritten ∅ trend_png [x89; x50; x4e; x47; x01]) ]} []).
Proof.
  apply (visualizer_stops_at_first_failure Sample.num (Sample.plot x01)
           Cases.broken (Sample.plot x03) (Sample.plot x04)
           Sample.all_species Sample.empty_world ∅).
  - reflexivity.
  - intros n _. apply can_write_empty.
  - reflexivity.
  - reflexivity.
Defined.

Lemma visualizer_needs_a_directory_witness :
  Sample.visualize Sample.all_species Cases.blocked_world
  = (Raise FileExistsError, Cases.blocked_world).
Proof.
  apply (visualizer_needs_a_directory Sample.num (Sample.plot x01)
           (Sample.plot x02) (Sample.plot x03) (Sample.plot x04)).
  reflexivity.
Defined.

Lemma pipeline_stops_when_load_fails_witness :
  exists ex,
    Cases.pipeline (inl FileNotFoundError) Sample.empty_world
    = (Return tt, World ∅ [LoadFailed ex]).
Proof.
  apply (pipeline_stops_when_load_fails Sample.num Sample.is_nan Sample.mean
           (inl FileNotFoundError) (Sample.plot x01) (Sample.plot x02)
           (Sample.plot x03) (Sample.plot x04) Sample.empty_world).
  reflexivity.
Defined.

Lemma pipeline_raises_on_few_categories_witness :
  exists log,
    Cases.pipeline (inr Cases.two_classes) Sample.empty_world
    = (Raise IndexError, World ∅ log).
Proof.
  apply (pipeline_raises_on_few_categories Sample.num Sample.is_nan Sample.mean
           (inr Cases.two_classes) (Sample.plot x01) (Sample.plot x02)
           (Sample.plot x03) (Sample.plot x04) Sample.empty_world
           (Table Sample.num ["setosa"; "versicolor"]
              [Sample.flower 51 35 14 2 0; Sample.flower 70 32 47 14 1])).
  - reflexivity.
  - simpl. lia.
Defined.

Lemma pipeline_completes_witness :
  (Cases.pipeline (inr Cases.iris) Sample.empty_world).1 = Return tt.
Proof.
  destruct (pipeline_completes Sample.num Sample.is_nan Sample.mean
              (inr Cases.iris) (Sample.plot x01) (Sample.plot x02)
              (Sample.plot x03) (Sample.plot x04) Sample.empty_world
              Sample.all_species ∅
              [x89; x50; x4e; x47; x01] [x89; x50; x4e; x47; x02]
              [x89; x50; x4e; x47; x03] [x89; x50; x4e; x47; x04])
    as (log & Hrun).
  - reflexivity.
  - simpl. lia.
  - reflexivity.
  - reflexivity.
  - reflexivity.
  - reflexivity.
  - reflexivity.
  - intros n _. apply can_write_empty.
  - unfold Cases.pipeline. by rewrite Hrun.
Defined.



Lemma print_failure_escapes_witness :
  Cases.fetch_to Cases.ascii_stdout Cases.offline Cases.url_ftp "out"
    Sample.empty_world
  = (Raise UnicodeEncodeError, Sample.empty_world).
Proof.
  apply (print_failure_escapes Sample.urlparse Sample.py_int Sample.sha256
           Cases.ascii_stdout Cases.offline Cases.url_ftp "out"
           Sample.empty_world (ParseResult "ftp" "/a.png")).
  - reflexivity.
  - discriminate.
  - discriminate.
  - reflexivity.
  - reflexivity.
Defined.
